(** * Movie booking database: the SQLite test script [run_tests_sqlite.py]

    A shallow embedding of the script: the store is a record of tables
    (lists of rows), the P2 report query is the relational pipeline its SQL
    text denotes, and the Python functions run in a small monad over a world
    made of the two files, the clock and a trace of observable events. *)

From Stdlib Require Import List ZArith Lia Bool String Ascii Permutation.
From Stdlib Require Import Sorting.Sorted Structures.OrdersEx Floats.SpecFloat.
From Stdlib Require Import Numbers.DecimalString RelationClasses.
Import ListNotations.

Local Open Scope string_scope.
Local Open Scope list_scope.
Local Open Scope Z_scope.

(** ** Values held by the store *)

(** A cell of a column the query passes through untouched: SQLite's NULL,
    INTEGER, REAL and TEXT storage classes, as Python receives them
    ([None], [int], [float], [str]). *)
Inductive value : Type :=
| VNull
| VInt (z : Z)
| VReal (f : spec_float)
| VText (s : string).

(** ** The schema *)

(** Modelled from the spec: the schema file [movie_booking_schema_sqlite.sql]
    is not among the sources, so each table carries the columns that the
    script's SQL names, typed by the way the SQL uses them.  Key columns
    and the columns compared in [ON] and [WHERE] are INTEGER or TEXT and not
    NULL (a NULL there would make the condition not true, like a value that
    matches nothing); [seat_id] of [Booking_Seat] is nullable because
    [COUNT(bs.seat_id)] counts only its non-NULL occurrences; the
    columns that are only selected are arbitrary values.  [Seat] is only
    ever counted.  [select] below subtracts exactly: that is the INTEGER the
    query returns whenever the difference is in [Sql.int64], and the
    properties that state the value of the column carry that bound. *)

Module Theater.
Record row : Type := mk
  { theater_id : Z;
    theater_name : string }.
End Theater.

Module Movie.
Record row : Type := mk
  { movie_id : Z;
    title : value;
    language : value;
    format : value;
    rating : value;
    is_active : Z }.
End Movie.

Module Hall.
Record row : Type := mk
  { hall_id : Z;
    theater_id : Z;
    hall_name : value;
    seating_capacity : Z }.
End Hall.

Module Show.
Record row : Type := mk
  { show_id : Z;
    movie_id : Z;
    hall_id : Z;
    show_date : string;
    start_time : string;
    base_price : value;
    is_active : Z }.
End Show.

Module Seat.
Record row : Type := mk
  { seat_id : Z;
    hall_id : Z }.
End Seat.

Module Booking.
Record row : Type := mk
  { booking_id : Z;
    show_id : Z;
    booking_status : string }.
End Booking.

Module Booking_Seat.
Record row : Type := mk
  { booking_id : Z;
    seat_id : option Z }.
End Booking_Seat.

(** A store: each table is either missing ([None], a statement naming it
    raises "no such table") or present with its rows. *)
Record database : Type := mkdb
  { Theater_tbl : option (list Theater.row);
    Movie_tbl : option (list Movie.row);
    Hall_tbl : option (list Hall.row);
    Show_tbl : option (list Show.row);
    Seat_tbl : option (list Seat.row);
    Booking_tbl : option (list Booking.row);
    Booking_Seat_tbl : option (list Booking_Seat.row) }.

(** The store [sqlite3.connect] creates when the file does not exist. *)
Definition empty_database : database :=
  mkdb None None None None None None None.

(** ** Relational operators *)

Module Sql.

Section Operators.
Context {A B : Type}.

(** [l INNER JOIN r ON on]: nested loops, the left table outermost. *)
Definition inner_join (on : A -> B -> bool) (l : list A) (r : list B)
  : list (A * B) :=
  flat_map (fun a => map (pair a) (filter (on a) r)) l.

(** [l LEFT JOIN r ON on]: a left row without a match is kept once,
    with NULL ([None]) for the right side. *)
Definition left_join (on : A -> B -> bool) (l : list A) (r : list B)
  : list (A * option B) :=
  flat_map (fun a =>
              match filter (on a) r with
              | [] => [(a, None)]
              | ms => map (fun b => (a, Some b)) ms
              end) l.
End Operators.

(** [COUNT(col)]: the rows whose [col] is not NULL. *)
Definition count_col {A C : Type} (col : A -> option C) (l : list A) : Z :=
  Z.of_nat
    (List.length
       (filter (fun a => match col a with Some _ => true | None => false end)
               l)).

(** [GROUP BY key], each group reduced by [agg]: one output row for each
    key that occurs. *)
Definition group_by {A R : Type} (key : A -> Z) (agg : list A -> R)
           (l : list A) : list (Z * R) :=
  map (fun k => (k, agg (filter (fun a => key a =? k) l)))
      (nodup Z.eq_dec (map key l)).

(** The values of the INTEGER storage class: 64-bit, signed.  [a - b] on
    two of them is the exact difference when that is one too; otherwise
    SQLite gives the REAL difference instead. *)
Definition int64 (z : Z) : Prop := - 2 ^ 63 <= z < 2 ^ 63.

(** [COALESCE(x, d)]. *)
Definition coalesce {A : Type} (x : option A) (d : A) : A :=
  match x with
  | Some v => v
  | None => d
  end.

(** TEXT comparison under the BINARY collation: bytewise, a proper prefix
    first. *)
Definition text_le (a b : string) : bool :=
  match String_as_OT.compare a b with
  | Gt => false
  | _ => true
  end.

Definition text_lt (a b : string) : Prop := String_as_OT.compare a b = Lt.

Section OrderBy.
Context {A : Type} (key : A -> string).

Fixpoint insert_by (x : A) (l : list A) : list A :=
  match l with
  | [] => [x]
  | y :: l' =>
      if text_le (key x) (key y) then x :: l else y :: insert_by x l'
  end.

(** The order [ORDER BY key ASC] establishes between a row and a later one. *)
Definition key_le (x y : A) : Prop := text_le (key x) (key y) = true.

(** [ORDER BY key ASC]; rows with equal keys keep their relative
    order. *)
Definition order_by (l : list A) : list A :=
  fold_right insert_by [] l.
End OrderBy.

End Sql.

(** ** Exceptions *)

Inductive exn : Type :=
| OperationalError (msg : string)
| FileNotFoundError (filename : string).

Definition no_such_table (name : string) : exn :=
  OperationalError ("no such table: " ++ name)%string.

(** [SELECT COUNT( * ) FROM <table>], for the table names of the schema. *)
Definition count_star (db : database) (table : string) : exn + Z :=
  let size {A : Type} (t : option (list A)) : exn + Z :=
    match t with
    | Some rows => inr (Z.of_nat (List.length rows))
    | None => inl (no_such_table table)
    end in
  if (table =? "Theater")%string then size (Theater_tbl db)
  else if (table =? "Movie")%string then size (Movie_tbl db)
  else if (table =? "Hall")%string then size (Hall_tbl db)
  else if (table =? "Show")%string then size (Show_tbl db)
  else if (table =? "Seat")%string then size (Seat_tbl db)
  else if (table =? "Booking")%string then size (Booking_tbl db)
  else if (table =? "Booking_Seat")%string then size (Booking_Seat_tbl db)
  else inl (no_such_table table).

(** ** The P2 query of [test_p2_query] *)

Module P2.

  (** The eight selected columns, in order. *)
Record result_row : Type := mk
  { movie_title : value;
    language : value;
    format : value;
    rating : value;
    hall_name : value;
    show_timing : string;
    base_price : value;
    available_seats : Z }.

(** A row of the derived table [booked_seats]: [(show_id, booked_count)]. *)
Definition booked_row : Type := (Z * Z)%type.

(** A row of the [FROM] clause: [s], [m], [h], [t] and, from the left
    join, [booked_seats] or NULL. *)
Definition source_row : Type :=
  (Show.row * Movie.row * Hall.row * Theater.row * option booked_row)%type.

Definition s (r : source_row) : Show.row := fst (fst (fst (fst r))).
Definition m (r : source_row) : Movie.row := snd (fst (fst (fst r))).
Definition h (r : source_row) : Hall.row := snd (fst (fst r)).
Definition t (r : source_row) : Theater.row := snd (fst r).
Definition booked_seats_of (r : source_row) : option booked_row := snd r.

(** [booked_seats.booked_count], NULL when the left join found no group. *)
Definition booked_count (r : source_row) : option Z :=
  option_map snd (booked_seats_of r).

Section Query.
Variable today : string.   (* what [date('now')] evaluates to *)
Variables (shows : list Show.row) (movies : list Movie.row)
          (halls : list Hall.row) (theaters : list Theater.row)
          (bookings : list Booking.row)
          (booking_seats : list Booking_Seat.row).

(** [Booking b INNER JOIN Booking_Seat bs ON b.booking_id = bs.booking_id
    WHERE b.booking_status = 'Confirmed'] *)
Definition confirmed_seats : list (Booking.row * Booking_Seat.row) :=
  filter (fun r => (Booking.booking_status (fst r) =? "Confirmed")%string)
    (Sql.inner_join
       (fun b bs => Booking.booking_id b =? Booking_Seat.booking_id bs)
       bookings booking_seats).

(** [SELECT b.show_id, COUNT(bs.seat_id) AS booked_count ...
    GROUP BY b.show_id] *)
Definition booked_seats : list booked_row :=
  Sql.group_by (fun r => Booking.show_id (fst r))
    (Sql.count_col (fun r => Booking_Seat.seat_id (snd r)))
    confirmed_seats.

(** [Show s INNER JOIN Movie m ... INNER JOIN Hall h ... INNER JOIN
    Theater t ...] *)
Definition join_chain
  : list (Show.row * Movie.row * Hall.row * Theater.row) :=
  Sql.inner_join
    (fun r t => Hall.theater_id (snd r) =? Theater.theater_id t)
    (Sql.inner_join
       (fun r h => Show.hall_id (fst r) =? Hall.hall_id h)
       (Sql.inner_join
          (fun s m => Show.movie_id s =? Movie.movie_id m)
          shows movies)
       halls)
    theaters.

(** [... LEFT JOIN (...) booked_seats ON s.show_id = booked_seats.show_id] *)
Definition from_clause : list source_row :=
  Sql.left_join
    (fun r g => Show.show_id (fst (fst (fst r))) =? fst g)
    join_chain booked_seats.

Definition where_clause (r : source_row) : bool :=
  (Theater.theater_name (t r) =? "PVR: Nexus")%string
  && (Show.show_date (s r) =? today)%string
  && (Show.is_active (s r) =? 1)
  && (Movie.is_active (m r) =? 1).

(** The [SELECT] list.  [available_seats] is the exact difference, which is
    the INTEGER the query returns when the difference is in [Sql.int64];
    past that bound SQLite returns a REAL, which is outside this model. *)
Definition select (r : source_row) : result_row :=
  {| movie_title := Movie.title (m r);
     language := Movie.language (m r);
     format := Movie.format (m r);
     rating := Movie.rating (m r);
     hall_name := Hall.hall_name (h r);
     show_timing := Show.start_time (s r);
     base_price := Show.base_price (s r);
     available_seats :=
       Hall.seating_capacity (h r) - Sql.coalesce (booked_count r) 0 |}.

(** The rows the query returns, before the [SELECT] list is applied. *)
Definition selected_sources : list source_row :=
  Sql.order_by (fun r => Show.start_time (s r))
    (filter where_clause from_clause).

Definition rows : list result_row := map select selected_sources.
End Query.

(** The query run on a store: it needs the six tables it names. *)
Definition query (today : string) (db : database) : exn + list result_row :=
  match Show_tbl db with None => inl (no_such_table "Show") | Some shows =>
  match Movie_tbl db with None => inl (no_such_table "Movie") | Some movies =>
  match Hall_tbl db with None => inl (no_such_table "Hall") | Some halls =>
  match Theater_tbl db with None => inl (no_such_table "Theater") | Some theaters =>
  match Booking_tbl db with None => inl (no_such_table "Booking") | Some bookings =>
  match Booking_Seat_tbl db with None => inl (no_such_table "Booking_Seat") | Some booking_seats =>
    inr (rows today shows movies halls theaters bookings booking_seats)
  end end end end end end.

(** [cursor.description]: the names of the result columns. *)
Definition columns : list string :=
  ["movie_title"; "language"; "format"; "rating"; "hall_name";
   "show_timing"; "base_price"; "available_seats"].

End P2.

(** *** Sample stores *)

Module Sample.

Definition theater1 : Theater.row := Theater.mk 1 "PVR: Nexus".

Definition theaters : list Theater.row :=
  [theater1; Theater.mk 2 "INOX: Forum"].

Definition movie1 : Movie.row :=
  Movie.mk 1 (VText "Dune") (VText "English") (VText "IMAX") (VText "UA") 1.

Definition movies : list Movie.row :=
  [movie1;
   Movie.mk 2 (VText "Retired") (VText "Hindi") (VText "2D") (VText "U") 0].

Definition hall1 : Hall.row := Hall.mk 1 1 (VText "Audi 1") 50.

Definition halls : list Hall.row :=
  [hall1; Hall.mk 2 2 (VText "Screen A") 80].

Definition show1 : Show.row :=
  Show.mk 1 1 1 "2026-01-15" "18:30:00" (VInt 250) 1.

Definition show2 : Show.row :=
  Show.mk 2 1 1 "2026-01-15" "10:00:00" (VInt 180) 1.

Definition shows : list Show.row :=
  [show1;
   show2;
   Show.mk 3 1 1 "2026-01-14" "10:00:00" (VInt 180) 1;
   Show.mk 4 1 1 "2026-01-16" "10:00:00" (VInt 180) 1;
   Show.mk 5 1 2 "2026-01-15" "12:00:00" (VInt 200) 1;
   Show.mk 6 2 1 "2026-01-15" "13:00:00" (VInt 200) 1;
   Show.mk 7 1 1 "2026-01-15" "14:00:00" (VInt 200) 0].

Definition seats : list Seat.row :=
  [Seat.mk 1 1; Seat.mk 2 1; Seat.mk 3 1].

Definition bookings : list Booking.row :=
  [Booking.mk 1 1 "Confirmed"; Booking.mk 2 1 "Confirmed";
   Booking.mk 3 1 "Confirmed"; Booking.mk 4 1 "Cancelled"].

Definition booking_seats : list Booking_Seat.row :=
  [Booking_Seat.mk 1 (Some 1); Booking_Seat.mk 2 (Some 2);
   Booking_Seat.mk 3 (Some 3); Booking_Seat.mk 4 (Some 1)].

Definition db : database :=
  mkdb (Some theaters) (Some movies) (Some halls) (Some shows) (Some seats)
       (Some bookings) (Some booking_seats).

(** The rows of shows 1 and 2 as the [FROM] clause builds them. *)
Definition booked_source : P2.source_row :=
  (show1, movie1, hall1, theater1, Some (1, 3)).

Definition unbooked_source : P2.source_row :=
  (show2, movie1, hall1, theater1, None).

(** Two confirmed bookings of show 1 that hold the same seat. *)
Definition shows1 : list Show.row := [show1].

Definition double_booked_source : P2.source_row :=
  (show1, movie1, hall1, theater1, Some (1, 2)).

Definition bookings2 : list Booking.row :=
  [Booking.mk 1 1 "Confirmed"; Booking.mk 2 1 "Confirmed"].

Definition booking_seats2 : list Booking_Seat.row :=
  [Booking_Seat.mk 1 (Some 1); Booking_Seat.mk 2 (Some 1)].

Definition double_booked : database :=
  mkdb (Some theaters) (Some movies) (Some halls) (Some shows1) (Some seats)
       (Some bookings2) (Some booking_seats2).

End Sample.


(** ** The world the script runs in *)

Inductive file : Type := DB_FILE | SCHEMA_FILE.

Definition file_name (f : file) : string :=
  match f with
  | DB_FILE => "movie_booking_system.db"
  | SCHEMA_FILE => "movie_booking_schema_sqlite.sql"
  end.

Inductive statement : Type :=
| Pragma_foreign_keys_on
| Select_count (table : string)
| P2_query
| Script (sql : string).

(** What an observer of a run sees, in order. *)
Inductive event : Type :=
| Printed (line : string)
| Printed_help
| Read_file (f : file)
| Connected
| Executed (st : statement)
| Committed
| Closed
| Removed (f : file).

Record world : Type := mkworld
  { schema_file : option string;      (* the text of SCHEMA_FILE, if present *)
    db_file : option database;        (* the store in DB_FILE, if present *)
    today : string;                   (* what [date('now')] returns *)
    trace : list event }.

(** The world after the events [tr] have been observed. *)
Definition extend (w : world) (tr : list event) : world :=
  mkworld (schema_file w) (db_file w) (today w) (trace w ++ tr).

Definition log (e : event) (w : world) : world := extend w [e].

Definition set_db (d : option database) (w : world) : world :=
  mkworld (schema_file w) d (today w) (trace w).

Definition set_schema (t : option string) (w : world) : world :=
  mkworld t (db_file w) (today w) (trace w).

(** ** The monad of script actions *)

Inductive outcome (A : Type) : Type :=
| Returned (a : A)
| Raised (e : exn)
| Exited (code : Z).
Arguments Returned {A} a.
Arguments Raised {A} e.
Arguments Exited {A} code.

Definition M (A : Type) : Type := world -> outcome A * world.

Definition ret {A : Type} (a : A) : M A := fun w => (Returned a, w).

Definition bind {A B : Type} (c : M A) (k : A -> M B) : M B :=
  fun w =>
    match c w with
    | (Returned a, w') => k a w'
    | (Raised e, w') => (Raised e, w')
    | (Exited n, w') => (Exited n, w')
    end.

Declare Scope py_scope.
Delimit Scope py_scope with py.
Notation "x <- c ;; k" := (bind c (fun x => k))
  (at level 61, c at next level, right associativity) : py_scope.
Notation "c ;; k" := (bind c (fun _ => k))
  (at level 61, right associativity) : py_scope.
Local Open Scope py_scope.

(** [sys.exit(code)] *)
Definition sys_exit {A : Type} (code : Z) : M A := fun w => (Exited code, w).

(** [if c: body] *)
Definition when (c : bool) (body : M unit) : M unit :=
  if c then body else ret tt.

(** [try: body finally: cleanup] *)
Definition try_finally {A : Type} (body : M A) (cleanup : M unit) : M A :=
  fun w =>
    let (r, w1) := body w in
    match cleanup w1 with
    | (Returned _, w2) => (r, w2)
    | (Raised e, w2) => (Raised e, w2)
    | (Exited n, w2) => (Exited n, w2)
    end.

(** [for x in l: acc = body(x, acc)] *)
Fixpoint for_each {A S : Type} (l : list A) (body : A -> S -> M S) (acc : S)
  : M S :=
  match l with
  | [] => ret acc
  | x :: l' => acc' <- body x acc ;; for_each l' body acc'
  end.

Definition emit (e : event) : M unit := fun w => (Returned tt, log e w).

Definition print (line : string) : M unit := emit (Printed line).

Definition is_some {A : Type} (o : option A) : bool :=
  match o with
  | Some _ => true
  | None => false
  end.

(** [os.path.exists(f)] *)
Definition os_path_exists (f : file) : M bool :=
  fun w =>
    (Returned match f with
              | DB_FILE => is_some (db_file w)
              | SCHEMA_FILE => is_some (schema_file w)
              end, w).

(** [os.remove(f)] *)
Definition os_remove (f : file) : M unit :=
  fun w =>
    match f with
    | DB_FILE =>
        match db_file w with
        | Some _ => (Returned tt, log (Removed f) (set_db None w))
        | None => (Raised (FileNotFoundError (file_name f)), w)
        end
    | SCHEMA_FILE =>
        match schema_file w with
        | Some _ => (Returned tt, log (Removed f) (set_schema None w))
        | None => (Raised (FileNotFoundError (file_name f)), w)
        end
    end.

(** [with open(SCHEMA_FILE, 'r') as f: f.read()] *)
Definition read_schema : M string :=
  fun w =>
    match schema_file w with
    | Some text => (Returned text, log (Read_file SCHEMA_FILE) w)
    | None => (Raised (FileNotFoundError (file_name SCHEMA_FILE)), w)
    end.

(** [sqlite3.connect(DB_FILE)]: the file is created, empty, when absent. *)
Definition sqlite3_connect : M unit :=
  fun w =>
    let d := match db_file w with
             | Some d => d
             | None => empty_database
             end in
    (Returned tt, log Connected (set_db (Some d) w)).

(** [conn.execute(...)] for a statement that reads the store. *)
Definition conn_execute {A : Type} (st : statement)
           (run : string -> database -> exn + A) : M A :=
  fun w =>
    let w' := log (Executed st) w in
    match db_file w with
    | None => (Raised (OperationalError "unable to open database file"), w')
    | Some d =>
        match run (today w) d with
        | inl e => (Raised e, w')
        | inr a => (Returned a, w')
        end
    end.

Definition conn_close : M unit := emit Closed.

Definition conn_commit : M unit := emit Committed.

(** [get_connection()] *)
Definition get_connection : M unit :=
  sqlite3_connect ;;
  conn_execute Pragma_foreign_keys_on (fun _ _ => inr tt) ;;
  ret tt.

(** ** Python strings *)

Module Py.

  (** [str(n)] for an [int]. *)
Definition str_int (z : Z) : string := NilZero.string_of_int (Z.to_int z).

(** [c * n] for a one-character string. *)
Fixpoint times (c : ascii) (n : nat) : string :=
  match n with
  | O => EmptyString
  | S n' => String c (times c n')
  end.

(** [s.ljust(width)] *)
Definition ljust (s : string) (width : nat) : string :=
  (s ++ times " " (width - String.length s))%string.

(** [sep.join(l)] *)
Definition join (sep : string) (l : list string) : string :=
  String.concat sep l.

(** [enumerate(l)] *)
Definition enumerate {A : Type} (l : list A) : list (nat * A) :=
  combine (seq 0 (List.length l)) l.

(** [max(l, default=0)] *)
Definition max_default0 (l : list nat) : nat := list_max l.

End Py.

(** ** [verify_setup] *)

Definition expected : list (string * Z) :=
  [("Theater", 2); ("Movie", 6); ("Hall", 5); ("Seat", 9); ("Booking", 3)].

Definition count_line (table : string) (count min_count : Z) (status : string)
  : string :=
  ("  " ++ table ++ ": " ++ Py.str_int count ++ " rows (expected >= "
        ++ Py.str_int min_count ++ ") [" ++ status ++ "]")%string.

Definition db_not_found_message : string :=
  ("ERROR: Database file '" ++ file_name DB_FILE
     ++ "' not found. Run --setup first.")%string.

(** The body of the loop over [expected.items()]. *)
Definition check_table (item : string * Z) (all_ok : bool) : M bool :=
  let (table, min_count) := item in
  count <- conn_execute (Select_count table) (fun _ d => count_star d table) ;;
  let status := if count >=? min_count then "OK" else "FAIL" in
  let all_ok := if (status =? "FAIL")%string then false else all_ok in
  print (count_line table count min_count status) ;;
  ret all_ok.

Definition verify_setup : M bool :=
  found <- os_path_exists DB_FILE ;;
  when (negb found) (print db_not_found_message ;; sys_exit 1) ;;
  get_connection ;;
  all_ok <-
    try_finally
      (print "Verifying database setup..." ;;
       all_ok <- for_each expected check_table true ;;
       show_count <-
         conn_execute (Select_count "Show") (fun _ d => count_star d "Show") ;;
       let status := if show_count >=? 20 then "OK" else "WARN" in
       print (count_line "Show" show_count 20 status) ;;
       ret all_ok)
      conn_close ;;
  (if all_ok : bool
   then print "Verification passed."
   else print
          "Verification failed. Some tables have fewer rows than expected.") ;;
  ret all_ok.

(** Whether the row count of [item]'s table reaches its minimum. *)
Definition check_ok (d : database) (item : string * Z) : bool :=
  match count_star d (fst item) with
  | inr count => count >=? snd item
  | inl _ => false
  end.

(** The conjunction of the blocking checks. *)
Definition blocking_ok (d : database) : bool := forallb (check_ok d) expected.

Definition verdict_line (all_ok : bool) : string :=
  if all_ok
  then "Verification passed."
  else "Verification failed. Some tables have fewer rows than expected.".

Definition show_line (show_count : Z) : string :=
  count_line "Show" show_count 20 (if show_count >=? 20 then "OK" else "WARN").

(** The store with its [Show] table replaced. *)
Definition with_shows (d : database) (shows : list Show.row) : database :=
  mkdb (Theater_tbl d) (Movie_tbl d) (Hall_tbl d) (Some shows) (Seat_tbl d)
       (Booking_tbl d) (Booking_Seat_tbl d).

(** ** [teardown_database] *)

Definition removed_message : string :=
  ("Database file '" ++ file_name DB_FILE ++ "' removed.")%string.

Definition nothing_to_remove_message : string :=
  ("Database file '" ++ file_name DB_FILE
     ++ "' not found; nothing to remove.")%string.

Definition teardown_database : M unit :=
  found <- os_path_exists DB_FILE ;;
  if found : bool
  then os_remove DB_FILE ;; print removed_message
  else print nothing_to_remove_message.

(** ** The functions that depend on the SQL engine and on [float] printing *)

Section Script.

  (** [conn.executescript(sql)]: the store after the batch, and the
      exception it stopped at, if any. *)
Variable executescript : string -> database -> database * option exn.

(** [str(x)] for a [float]. *)
Variable float_repr : spec_float -> string.

(** *** [setup_database] *)

Definition schema_not_found_message : string :=
  ("ERROR: Schema file '" ++ file_name SCHEMA_FILE ++ "' not found.")%string.

Definition conn_executescript (sql : string) : M unit :=
  fun w =>
    let w' := log (Executed (Script sql)) w in
    match db_file w with
    | None => (Raised (OperationalError "unable to open database file"), w')
    | Some d =>
        let (d', err) := executescript sql d in
        (match err with
         | Some e => Raised e
         | None => Returned tt
         end, set_db (Some d') w')
    end.

Definition setup_database : M unit :=
  found <- os_path_exists SCHEMA_FILE ;;
  when (negb found) (print schema_not_found_message ;; sys_exit 1) ;;
  print ("Setting up database from '" ++ file_name SCHEMA_FILE ++ "'...")%string ;;
  schema_sql <- read_schema ;;
  get_connection ;;
  try_finally
    (conn_executescript schema_sql ;;
     conn_commit ;;
     print "Database setup complete.")
    conn_close.

(** *** [test_p2_query] *)

(** [str(val)] for a cell of a fetched row. *)
Definition str (v : value) : string :=
  match v with
  | VNull => "None"
  | VInt z => Py.str_int z
  | VReal f => float_repr f
  | VText s => s
  end.

(** A fetched row as the tuple Python receives. *)
Definition cells (row : P2.result_row) : list value :=
  [P2.movie_title row; P2.language row; P2.format row; P2.rating row;
   P2.hall_name row; VText (P2.show_timing row); P2.base_price row;
   VInt (P2.available_seats row)].

Definition col_widths (columns : list string) (rows : list P2.result_row)
  : list nat :=
  map (fun '(i, col) =>
         Nat.max (String.length col)
           (Py.max_default0
              (map (fun row => String.length (str (nth i (cells row) VNull)))
                   rows)))
      (Py.enumerate columns).

Definition header (columns : list string) (widths : list nat) : string :=
  ("  " ++ Py.join "  "
     (map (fun '(i, col) => Py.ljust col (nth i widths O))
          (Py.enumerate columns)))%string.

Definition separator (widths : list nat) : string :=
  ("  " ++ Py.join "  " (map (fun w => Py.times "-" w) widths))%string.

Definition row_line (widths : list nat) (row : P2.result_row) : string :=
  ("  " ++ Py.join "  "
     (map (fun '(i, val) => Py.ljust (str val) (nth i widths O))
          (Py.enumerate (cells row))))%string.

Definition found_line (rows : list P2.result_row) : string :=
  String "010"%char
    ("  " ++ Py.str_int (Z.of_nat (List.length rows)) ++ " show(s) found.")%string.

Definition no_shows_message : string :=
  "  No shows found for today. (This is expected if today has no scheduled shows.)".

Definition running_message : string :=
  "Running P2 query: Shows at 'PVR: Nexus' for today...".

Definition passed_message : string := "P2 query test passed.".

(** The [else] branch: the aligned table. *)
Definition print_table (columns : list string) (rows : list P2.result_row)
  : M unit :=
  let widths := col_widths columns rows in
  print (header columns widths) ;;
  print (separator widths) ;;
  for_each rows (fun row _ => print (row_line widths row)) tt ;;
  print (found_line rows).

(** The lines the two branches print for the fetched rows. *)
Definition report_lines (columns : list string) (rows : list P2.result_row)
  : list string :=
  match rows with
  | [] => [no_shows_message]
  | _ :: _ =>
      let widths := col_widths columns rows in
      header columns widths :: separator widths
        :: map (row_line widths) rows ++ [found_line rows]
  end.

Definition test_p2_query : M bool :=
  found <- os_path_exists DB_FILE ;;
  when (negb found) (print db_not_found_message ;; sys_exit 1) ;;
  get_connection ;;
  try_finally
    (print running_message ;;
     rows <- conn_execute P2_query P2.query ;;
     let columns := P2.columns in
     match rows with
     | [] => print no_shows_message
     | _ :: _ => print_table columns rows
     end ;;
     print passed_message ;;
     ret true)
    conn_close.

(** *** [run_all_tests] *)

(** What [run_all_tests] prints before it calls the Verifier. *)
Definition banner : list event :=
  [Printed (Py.times "=" 60); Printed "Running all tests";
   Printed (Py.times "=" 60)].

Definition summary_line (ok : bool) : string :=
  if ok then "All tests passed." else "Some tests failed.".

Definition run_all_tests : M bool :=
  print (Py.times "=" 60) ;;
  print "Running all tests" ;;
  print (Py.times "=" 60) ;;
  ok <- verify_setup ;;
  print "" ;;
  p2 <- test_p2_query ;;
  let ok := p2 && ok in
  print "" ;;
  (if ok : bool
   then print "All tests passed."
   else print "Some tests failed.") ;;
  ret ok.

(** *** [main] *)

Record args : Type := mkargs
  { setup : bool;
    verify : bool;
    test_p2 : bool;
    test : bool;
    teardown : bool }.

Definition any_flag (a : args) : bool :=
  setup a || verify a || test_p2 a || test a || teardown a.

Definition main (a : args) : M unit :=
  when (negb (any_flag a)) (emit Printed_help ;; sys_exit 0) ;;
  when (setup a) setup_database ;;
  when (verify a) (verify_setup ;; ret tt) ;;
  when (test_p2 a) (test_p2_query ;; ret tt) ;;
  when (test a)
    (success <- run_all_tests ;;
     sys_exit (if success : bool then 0 else 1)) ;;
  when (teardown a) teardown_database.

End Script.

(** *** Sample worlds *)

Module SampleWorld.

Definition no_script (sql : string) (d : database) : database * option exn :=
  (d, None).

Definition no_floats (f : spec_float) : string := "nan".

Definition populated : world :=
  mkworld (Some "") (Some Sample.db) "2026-01-15" [].

Definition fresh : world := mkworld None None "2026-01-15" [].

(** A day without shows. *)
Definition quiet_day : world :=
  mkworld (Some "") (Some Sample.db) "2027-03-01" [].

End SampleWorld.

(** ** Bookings and seats of a show, read off the tables

    The seats a show has sold, stated directly on [Booking] and
    [Booking_Seat] rather than through the query's join and grouping. *)

Module Seats.

  (** The seats attached to booking [b], one entry for each [Booking_Seat]
      row of [b] that names a seat. *)
Definition of_booking (booking_seats : list Booking_Seat.row)
           (b : Booking.row) : list Z :=
  flat_map (fun bs =>
              if Booking.booking_id b =? Booking_Seat.booking_id bs
              then match Booking_Seat.seat_id bs with
                   | Some seat => [seat]
                   | None => []
                   end
              else [])
           booking_seats.

(** The bookings of show [show_id] whose status is exactly 'Confirmed'. *)
Definition confirmed_bookings (bookings : list Booking.row) (show_id : Z)
  : list Booking.row :=
  filter (fun b => (Booking.show_id b =? show_id)
                   && (Booking.booking_status b =? "Confirmed")%string)
         bookings.

(** Every seat attachment of a confirmed booking of the show; a seat
    held by two such bookings occurs twice. *)
Definition attached (bookings : list Booking.row)
           (booking_seats : list Booking_Seat.row) (show_id : Z) : list Z :=
  flat_map (of_booking booking_seats) (confirmed_bookings bookings show_id).

(** The number of attachments. *)
Definition attachments bookings booking_seats show_id : Z :=
  Z.of_nat (List.length (attached bookings booking_seats show_id)).

(** The number of distinct seats among them. *)
Definition distinct bookings booking_seats show_id : Z :=
  Z.of_nat
    (List.length (nodup Z.eq_dec (attached bookings booking_seats show_id))).

End Seats.

(** ** Observations on a run *)

(** How many connections the events [tr] open, and how many they close. *)
Definition opened (tr : list event) : nat :=
  List.length
    (filter (fun e => match e with Connected => true | _ => false end) tr).

Definition closed (tr : list event) : nat :=
  List.length
    (filter (fun e => match e with Closed => true | _ => false end) tr).

(** Events that neither open nor close a connection. *)
Definition quiet (tr : list event) : Prop := opened tr = O /\ closed tr = O.

(** Events that close every connection they open. *)
Definition balanced (tr : list event) : Prop := opened tr = closed tr.

(** [w'] is [w] with events satisfying [P] added: files and clock are the
    same. *)
Definition logged (P : list event -> Prop) (w w' : world) : Prop :=
  exists tr, w' = extend w tr /\ P tr.

(** The trace of [w'] is that of [w] with events satisfying [P] added. *)
Definition traced (P : list event -> Prop) (w w' : world) : Prop :=
  exists tr, trace w' = trace w ++ tr /\ P tr.

(** The action relates by [R] the world it starts in to the one it leaves,
    whether it returns, raises or exits. *)
Definition keeps {A : Type} (R : world -> world -> Prop) (c : M A) : Prop :=
  forall w, R w (snd (c w)).

(** [L] holds at most one element for each element of [l], in the order of
    [l]; [p] gives the element of [l] an element of [L] stands for. *)
Definition thin {A X : Type} (p : X -> A) (l : list A) (L : list X) : Prop :=
  exists g : A -> list X,
    L = flat_map g l
    /\ forall a, (List.length (g a) <= 1)%nat
                 /\ forall x, In x (g a) -> p x = a.

(** What one pass of the Verifier's loop adds to the trace. *)
Definition check_events (d : database) (item : string * Z) : list event :=
  Executed (Select_count (fst item))
    :: match count_star d (fst item) with
       | inr count =>
           [Printed (count_line (fst item) count (snd item)
                       (if count >=? snd item then "OK" else "FAIL"))]
       | inl _ => []
       end.

(** The lines among the events. *)
Definition printed (tr : list event) : list string :=
  flat_map (fun e => match e with Printed line => [line] | _ => [] end) tr.

(** *** More sample stores *)

Module Sample2.

(** The sample store without its [Booking_Seat] table. *)
Definition no_booking_seat : database :=
  mkdb (Some Sample.theaters) (Some Sample.movies) (Some Sample.halls)
       (Some Sample.shows) (Some Sample.seats) (Some Sample.bookings) None.

(** The sample store without its [Hall] table. *)
Definition no_hall : database :=
  mkdb (Some Sample.theaters) (Some Sample.movies) None
       (Some Sample.shows) (Some Sample.seats) (Some Sample.bookings)
       (Some Sample.booking_seats).

(** A store with enough rows for every blocking check. *)
Definition full : database :=
  mkdb (Some Sample.theaters) (Some (repeat Sample.movie1 6))
       (Some (repeat Sample.hall1 5)) (Some Sample.shows)
       (Some (repeat (Seat.mk 1 1) 9)) (Some Sample.bookings)
       (Some Sample.booking_seats).

(** An engine that loads the sample store whatever the script says. *)
Definition load_sample (sql : string) (d : database) : database * option exn :=
  (Sample.db, None).

(** An engine that rejects every script. *)
Definition reject (sql : string) (d : database) : database * option exn :=
  (d, Some (OperationalError "near line 1: syntax error")).

(** The rows the Reporter fetches from the sample store. *)
Definition report : list P2.result_row :=
  P2.rows "2026-01-15" Sample.shows Sample.movies Sample.halls
          Sample.theaters Sample.bookings Sample.booking_seats.

(** A schema file and no store yet. *)
Definition unloaded : world :=
  mkworld (Some "CREATE TABLE Theater (theater_id INTEGER PRIMARY KEY);")
          None "2026-01-15" [].

Definition only_test : args := mkargs false false false true false.

Definition test_and_teardown : args := mkargs false false false true true.

End Sample2.

(** * Properties *)

(** ** The sample store *)

(** Of the seven sample shows only two are at 'PVR: Nexus' today, active,
    with an active movie; the 10:00 show is unbooked, the 18:30 show has
    three confirmed seats out of 50. *)
Example sample_report :
  option_map (map (fun r => (P2.show_timing r, P2.available_seats r)))
             (match P2.query "2026-01-15" Sample.db with
              | inr rows => Some rows
              | inl _ => None
              end)
  = Some [("10:00:00", 50); ("18:30:00", 47)].
Proof. reflexivity. Qed.

Example sample_without_tables :
  P2.query "2026-01-15" empty_database = inl (no_such_table "Show").
Proof. reflexivity. Qed.

Example sample_counts :
  map (count_star Sample.db) ["Theater"; "Movie"; "Hall"; "Seat"; "Booking"]
  = [inr 2; inr 2; inr 2; inr 3; inr 4].
Proof. reflexivity. Qed.

(** ** The relational operators *)

Module SqlFacts.
Import Sql.

Lemma in_inner_join {A B : Type} (on : A -> B -> bool) l r a b :
  In (a, b) (inner_join on l r) <-> In a l /\ In b r /\ on a b = true.
Proof.
  unfold inner_join. rewrite in_flat_map. split.
  - intros (a' & Ha & Hin). apply in_map_iff in Hin as (b' & Heq & Hb).
    inversion Heq; subst. apply filter_In in Hb. tauto.
  - intros (Ha & Hb & Hon). exists a. split; [assumption|].
    apply in_map, filter_In. tauto.
Qed.

Lemma filter_nil_iff {A : Type} (f : A -> bool) l :
  filter f l = [] <-> forall x, In x l -> f x = false.
Proof.
  induction l as [|y l IH]; simpl.
  - tauto.
  - destruct (f y) eqn:Hy; split.
    + discriminate.
    + intros H. specialize (H y (or_introl eq_refl)). congruence.
    + intros H x [<-|Hx]; [assumption|]. now apply IH.
    + intros H. apply IH. auto.
Qed.

Lemma in_left_join_some {A B : Type} (on : A -> B -> bool) l r a b :
  In (a, Some b) (left_join on l r) <-> In a l /\ In b r /\ on a b = true.
Proof.
  unfold left_join. rewrite in_flat_map. split.
  - intros (a' & Ha & Hin). destruct (filter (on a') r) as [|b0 ms] eqn:Hf.
    + destruct Hin as [Heq|[]]. discriminate.
    + apply in_map_iff in Hin as (b' & Heq & Hb). inversion Heq; subst.
      rewrite <- Hf in Hb. apply filter_In in Hb. tauto.
  - intros (Ha & Hb & Hon). exists a. split; [assumption|].
    assert (Hin : In b (filter (on a) r)) by (apply filter_In; tauto).
    destruct (filter (on a) r) as [|b0 ms]; [contradiction|].
    now apply (in_map (fun b => (a, Some b))).
Qed.

Lemma in_left_join_none {A B : Type} (on : A -> B -> bool) l r a :
  In (a, None) (left_join on l r)
  <-> In a l /\ forall b, In b r -> on a b = false.
Proof.
  unfold left_join. rewrite in_flat_map. split.
  - intros (a' & Ha & Hin). destruct (filter (on a') r) as [|b0 ms] eqn:Hf.
    + destruct Hin as [Heq|[]]. inversion Heq; subst.
      split; [assumption|]. now apply filter_nil_iff.
    + apply in_map_iff in Hin as (b' & Heq & _). discriminate.
  - intros (Ha & Hno). exists a. split; [assumption|].
    apply filter_nil_iff in Hno. rewrite Hno. now left.
Qed.

Lemma in_group_by {A R : Type} (key : A -> Z) (agg : list A -> R) l k v :
  In (k, v) (group_by key agg l)
  <-> In k (map key l) /\ v = agg (filter (fun a => key a =? k) l).
Proof.
  unfold group_by. rewrite in_map_iff. split.
  - intros (k' & Heq & Hk). inversion Heq; subst.
    apply nodup_In in Hk. tauto.
  - intros (Hk & ->). exists k. split; [reflexivity|]. now apply nodup_In.
Qed.

(** ** Ordering of TEXT *)

Lemma text_lt_irrefl a : ~ text_lt a a.
Proof. exact (StrictOrder_Irreflexive (R := String_as_OT.lt) a). Qed.

Lemma text_lt_trans a b c : text_lt a b -> text_lt b c -> text_lt a c.
Proof. exact (StrictOrder_Transitive (R := String_as_OT.lt) a b c). Qed.

Lemma text_cases a b : a = b \/ text_lt a b \/ text_lt b a.
Proof.
  destruct (String_as_OT.compare_spec a b) as [Heq|Hlt|Hgt]; auto.
Qed.

Lemma text_le_false a b : text_le a b = false <-> text_lt b a.
Proof.
  unfold text_le.
  destruct (String_as_OT.compare_spec a b) as [Heq|Hlt|Hgt].
  - change (a = b) in Heq. subst b.
    split; [discriminate|]. intros H. now apply text_lt_irrefl in H.
  - split; [discriminate|]. intros H. exfalso.
    apply (text_lt_irrefl a). now apply text_lt_trans with b.
  - split; [intros _; exact Hgt | reflexivity].
Qed.

Lemma text_le_total a b : text_le a b = true \/ text_le b a = true.
Proof.
  destruct (text_le a b) eqn:Hab; [now left|right].
  apply text_le_false in Hab.
  destruct (text_le b a) eqn:Hba; [reflexivity|].
  apply text_le_false in Hba. exfalso.
  apply (text_lt_irrefl a). now apply text_lt_trans with b.
Qed.

Lemma text_le_true a b : text_le a b = true <-> a = b \/ text_lt a b.
Proof.
  split.
  - intros H. destruct (text_cases a b) as [->|[Hlt|Hgt]]; auto.
    apply text_le_false in Hgt. congruence.
  - intros [->|Hlt]; destruct (text_le _ _) eqn:Hc; try reflexivity;
      apply text_le_false in Hc; exfalso.
    + now apply text_lt_irrefl in Hc.
    + apply (text_lt_irrefl a). now apply text_lt_trans with b.
Qed.

Lemma text_le_trans a b c :
  text_le a b = true -> text_le b c = true -> text_le a c = true.
Proof.
  rewrite !text_le_true.
  intros [->|Hab] [->|Hbc]; auto. right. now apply text_lt_trans with b.
Qed.

(** ** [ORDER BY] *)

Section OrderBy.
Context {A : Type} (key : A -> string).

Lemma insert_by_perm x l : Permutation (insert_by key x l) (x :: l).
Proof.
  induction l as [|y l IH]; simpl.
  - reflexivity.
  - destruct (text_le (key x) (key y)).
    + reflexivity.
    + rewrite IH. apply perm_swap.
Qed.

Lemma order_by_perm l : Permutation (order_by key l) l.
Proof.
  induction l as [|x l IH]; simpl.
  - constructor.
  - rewrite insert_by_perm. now constructor.
Qed.

Lemma in_order_by l x : In x (order_by key l) <-> In x l.
Proof.
  split; apply Permutation_in; [|symmetry]; apply order_by_perm.
Qed.

Lemma insert_by_sorted x l :
  StronglySorted (key_le key) l -> StronglySorted (key_le key) (insert_by key x l).
Proof.
  induction 1 as [|y l Hs IH Hall]; simpl.
  - repeat constructor.
  - destruct (text_le (key x) (key y)) eqn:Hxy.
    + constructor; [now constructor|].
      constructor; [assumption|].
      eapply Forall_impl; [|exact Hall].
      intros z Hz. unfold key_le in *. eauto using text_le_trans.
    + constructor; [assumption|].
      eapply Permutation_Forall; [symmetry; apply insert_by_perm|].
      constructor; [|assumption].
      unfold key_le. destruct (text_le_total (key x) (key y)); congruence.
Qed.

Lemma order_by_sorted l : StronglySorted (key_le key) (order_by key l).
Proof.
  induction l as [|x l IH]; simpl.
  - constructor.
  - now apply insert_by_sorted.
Qed.

(** In a sorted list a row with a strictly smaller key comes first. *)
Lemma sorted_lt_index l :
  StronglySorted (key_le key) l ->
  forall i k x y,
    nth_error l i = Some x -> nth_error l k = Some y ->
    text_lt (key x) (key y) -> (i < k)%nat.
Proof.
  induction 1 as [|z l Hs IH Hall]; intros i k x y Hi Hk Hlt.
  - destruct i; discriminate.
  - destruct i as [|i], k as [|k]; simpl in Hi, Hk.
    + inversion Hi; inversion Hk; subst. exfalso.
      now apply text_lt_irrefl in Hlt.
    + lia.
    + inversion Hk; subst. exfalso.
      apply nth_error_In in Hi.
      rewrite Forall_forall in Hall. specialize (Hall x Hi).
      unfold key_le in Hall. apply text_le_false in Hlt. congruence.
    + apply -> Nat.succ_lt_mono. eauto.
Qed.
End OrderBy.

End SqlFacts.

(** ** The P2 query *)

Module P2Facts.
Import Sql SqlFacts.

Lemma filter_map_pair {A B : Type} (f : A * B -> bool) (a : A) (l : list B) :
  filter f (map (pair a) l) = map (pair a) (filter (fun b => f (a, b)) l).
Proof.
  induction l as [|b l IH]; simpl; [reflexivity|].
  destruct (f (a, b)); simpl; now rewrite IH.
Qed.

Lemma filter_const {A : Type} (c : bool) (l : list A) :
  filter (fun _ => c) l = if c then l else [].
Proof.
  induction l as [|x l IH]; simpl.
  - now destruct c.
  - rewrite IH. now destruct c.
Qed.

Lemma count_col_app {A C : Type} (col : A -> option C) l1 l2 :
  count_col col (l1 ++ l2) = count_col col l1 + count_col col l2.
Proof.
  unfold count_col. rewrite filter_app, length_app. lia.
Qed.

Lemma count_seats_of_booking booking_seats b :
  count_col (fun r : Booking.row * Booking_Seat.row =>
               Booking_Seat.seat_id (snd r))
    (map (pair b)
         (filter (fun bs => Booking.booking_id b =? Booking_Seat.booking_id bs)
                 booking_seats))
  = Z.of_nat (List.length (Seats.of_booking booking_seats b)).
Proof.
  unfold count_col, Seats.of_booking. f_equal.
  induction booking_seats as [|bs l IH]; simpl; [reflexivity|].
  destruct (Booking.booking_id b =? Booking_Seat.booking_id bs); simpl.
  - destruct (Booking_Seat.seat_id bs); simpl; now rewrite IH.
  - exact IH.
Qed.

Section Query.
Variable today : string.
Variables (shows : list Show.row) (movies : list Movie.row)
          (halls : list Hall.row) (theaters : list Theater.row)
          (bookings : list Booking.row)
          (booking_seats : list Booking_Seat.row).

(** The group of a show in the derived table holds one row for each
    seat attachment of its confirmed bookings. *)
Lemma group_counts_attachments k :
  count_col (fun r : Booking.row * Booking_Seat.row =>
               Booking_Seat.seat_id (snd r))
    (filter (fun r => Booking.show_id (fst r) =? k)
            (P2.confirmed_seats bookings booking_seats))
  = Seats.attachments bookings booking_seats k.
Proof.
  unfold P2.confirmed_seats, Seats.attachments, Seats.attached,
    Seats.confirmed_bookings, inner_join.
  induction bookings as [|b l IH]; simpl; [reflexivity|].
  rewrite !filter_app, count_col_app, IH, !filter_map_pair. simpl.
  rewrite !filter_const.
  destruct (Booking.show_id b =? k);
    destruct (Booking.booking_status b =? "Confirmed")%string; simpl;
    try reflexivity.
  rewrite length_app, Nat2Z.inj_add, count_seats_of_booking.
  reflexivity.
Qed.

Lemma in_sources r :
  In r (P2.selected_sources today shows movies halls theaters bookings
                            booking_seats)
  <-> In r (P2.from_clause shows movies halls theaters bookings
                           booking_seats)
      /\ P2.where_clause today r = true.
Proof.
  unfold P2.selected_sources.
  rewrite in_order_by, filter_In. reflexivity.
Qed.

Lemma in_join_chain sh mv hl th :
  In (sh, mv, hl, th) (P2.join_chain shows movies halls theaters)
  <-> In sh shows /\ In mv movies /\ In hl halls /\ In th theaters
      /\ Show.movie_id sh = Movie.movie_id mv
      /\ Show.hall_id sh = Hall.hall_id hl
      /\ Hall.theater_id hl = Theater.theater_id th.
Proof.
  unfold P2.join_chain. rewrite !in_inner_join. simpl.
  rewrite !Z.eqb_eq. tauto.
Qed.

Lemma where_clause_true r :
  P2.where_clause today r = true
  <-> Theater.theater_name (P2.t r) = "PVR: Nexus"
      /\ Show.show_date (P2.s r) = today
      /\ Show.is_active (P2.s r) = 1
      /\ Movie.is_active (P2.m r) = 1.
Proof.
  unfold P2.where_clause.
  rewrite !andb_true_iff, !String.eqb_eq, !Z.eqb_eq. tauto.
Qed.

(** What the left join attaches to a chain row is its show's group. *)
Lemma booked_count_attachments r :
  In r (P2.from_clause shows movies halls theaters bookings booking_seats) ->
  coalesce (P2.booked_count r) 0
  = Seats.attachments bookings booking_seats (Show.show_id (P2.s r)).
Proof.
  destruct r as [c [[k v]|]]; unfold P2.from_clause; intros Hin.
  - apply in_left_join_some in Hin as (_ & Hg & Hon).
    apply in_group_by in Hg as (_ & ->). simpl in Hon.
    apply Z.eqb_eq in Hon. unfold P2.booked_count, P2.s. simpl.
    rewrite Hon. apply group_counts_attachments.
  - apply in_left_join_none in Hin as (_ & Hno).
    unfold P2.booked_count, P2.s. simpl.
    rewrite <- group_counts_attachments.
    set (k := Show.show_id (fst (fst (fst c)))) in *.
    destruct (filter (fun r => Booking.show_id (fst r) =? k)
                (P2.confirmed_seats bookings booking_seats))
      as [|x l] eqn:Hf; [reflexivity|exfalso].
    assert (Hx : In x (x :: l)) by now left.
    rewrite <- Hf in Hx. apply filter_In in Hx as (Hx & Hk).
    apply Z.eqb_eq in Hk.
    specialize (Hno (k, count_col (fun r : Booking.row * Booking_Seat.row =>
                                     Booking_Seat.seat_id (snd r))
                          (x :: l))).
    simpl in Hno. rewrite Z.eqb_refl in Hno.
    enough (false = true) by discriminate. symmetry. apply Hno.
    apply in_group_by. split; [|now rewrite Hf].
    rewrite <- Hk. now apply (in_map (fun r => Booking.show_id (fst r))).
Qed.

Lemma left_join_keeps {A B : Type} (on : A -> B -> bool) l r a :
  In a l -> exists o, In (a, o) (left_join on l r).
Proof.
  intros Ha. destruct (filter (on a) r) as [|b ms] eqn:Hf.
  - exists None. apply in_left_join_none. split; [assumption|].
    now apply filter_nil_iff.
  - exists (Some b). apply in_left_join_some.
    assert (Hb : In b (filter (on a) r)) by (rewrite Hf; now left).
    apply filter_In in Hb. tauto.
Qed.

Lemma no_confirmed_no_attachment k :
  (forall b, In b bookings -> Booking.show_id b = k ->
             Booking.booking_status b <> "Confirmed") ->
  Seats.confirmed_bookings bookings k = [].
Proof.
  intros Hno. apply filter_nil_iff. intros b Hb.
  apply andb_false_iff.
  destruct (Z.eqb_spec (Booking.show_id b) k) as [Hk|Hk]; [right|now left].
  apply String.eqb_neq. now apply Hno.
Qed.

Lemma no_confirmed_no_group k :
  Seats.confirmed_bookings bookings k = [] ->
  ~ In k (map fst (P2.booked_seats bookings booking_seats)).
Proof.
  intros Hno Hin. apply in_map_iff in Hin as ([k' v] & Hk & Hin).
  simpl in Hk. subst k'. apply in_group_by in Hin as (Hin & _).
  apply in_map_iff in Hin as ([b bs] & Hk & Hin). simpl in Hk.
  unfold P2.confirmed_seats in Hin. apply filter_In in Hin as (Hin & Hst).
  apply in_inner_join in Hin as (Hb & _ & _). simpl in Hst.
  assert (Hc : In b (Seats.confirmed_bookings bookings k)).
  { apply filter_In. split; [assumption|].
    apply andb_true_iff. split; [now apply Z.eqb_eq|assumption]. }
  rewrite Hno in Hc. contradiction.
Qed.

End Query.

End P2Facts.

(** ** The rows the P2 query selects *)

Section Availability.
Import Sql SqlFacts P2Facts.

Variable today : string.
Variables (shows : list Show.row) (movies : list Movie.row)
          (halls : list Hall.row) (theaters : list Theater.row)
          (bookings : list Booking.row)
          (booking_seats : list Booking_Seat.row).

(** The difference [select] computes for a selected row. *)
Lemma source_available_seats (r : P2.source_row) :
  In r (P2.selected_sources today shows movies halls theaters bookings
                            booking_seats) ->
  P2.available_seats (P2.select r)
  = Hall.seating_capacity (P2.h r)
    - Seats.attachments bookings booking_seats (Show.show_id (P2.s r))
  /\ (NoDup (Seats.attached bookings booking_seats (Show.show_id (P2.s r))) ->
      P2.available_seats (P2.select r)
      = Hall.seating_capacity (P2.h r)
        - Seats.distinct bookings booking_seats (Show.show_id (P2.s r)))
  /\ (Seats.confirmed_bookings bookings (Show.show_id (P2.s r)) = [] ->
      P2.available_seats (P2.select r) = Hall.seating_capacity (P2.h r)).
Proof.
  intros Hin. apply in_sources in Hin as (Hin & _).
  apply booked_count_attachments in Hin. simpl. rewrite Hin.
  split; [reflexivity|split].
  - intros Hnd. unfold Seats.distinct. now rewrite (nodup_fixed_point _ Hnd).
  - intros Hno. unfold Seats.attachments, Seats.attached. rewrite Hno.
    simpl. lia.
Qed.

(** Which tuples of the join chain are selected. *)
Lemma sources_exactly_filtered
        (sh : Show.row) (mv : Movie.row) (hl : Hall.row) (th : Theater.row) :
  (exists booked,
      In (sh, mv, hl, th, booked)
         (P2.selected_sources today shows movies halls theaters bookings
                              booking_seats))
  <-> (In sh shows /\ In mv movies /\ In hl halls /\ In th theaters
       /\ Show.movie_id sh = Movie.movie_id mv
       /\ Show.hall_id sh = Hall.hall_id hl
       /\ Hall.theater_id hl = Theater.theater_id th)
      /\ Theater.theater_name th = "PVR: Nexus"
      /\ Show.show_date sh = today
      /\ Show.is_active sh = 1
      /\ Movie.is_active mv = 1.
Proof.
  rewrite <- in_join_chain. split.
  - intros (booked & Hin). apply in_sources in Hin as (Hin & Hw).
    apply where_clause_true in Hw. split; [|exact Hw].
    unfold P2.from_clause in Hin. destruct booked as [g|].
    + now apply in_left_join_some in Hin.
    + now apply in_left_join_none in Hin.
  - intros (Hc & Hw).
    destruct (left_join_keeps
                (fun r g => Show.show_id (fst (fst (fst r))) =? fst g)
                _ (P2.booked_seats bookings booking_seats) _ Hc)
      as (booked & Hin).
    exists booked. apply in_sources. split; [exact Hin|].
    now apply where_clause_true.
Qed.

(** The rows come out sorted on [show_timing]. *)
Lemma rows_sorted_by_start_time (i k : nat) (ri rk : P2.result_row) :
  nth_error (P2.rows today shows movies halls theaters bookings booking_seats)
            i = Some ri ->
  nth_error (P2.rows today shows movies halls theaters bookings booking_seats)
            k = Some rk ->
  text_lt (P2.show_timing ri) (P2.show_timing rk) ->
  (i < k)%nat.
Proof.
  unfold P2.rows. rewrite !nth_error_map. intros Hi Hk Hlt.
  destruct (nth_error _ i) as [si|] eqn:Hsi; [|discriminate].
  destruct (nth_error _ k) as [sk|] eqn:Hsk; [|discriminate].
  inversion Hi; inversion Hk; subst. simpl in Hlt.
  exact (sorted_lt_index (fun r => Show.start_time (P2.s r)) _
           (order_by_sorted _ _) i k si sk Hsi Hsk Hlt).
Qed.

(** A filtered show without Confirmed bookings among the selected rows. *)
Lemma unbooked_source_retained
        (sh : Show.row) (mv : Movie.row) (hl : Hall.row) (th : Theater.row) :
  In (sh, mv, hl, th) (P2.join_chain shows movies halls theaters) ->
  P2.where_clause today (sh, mv, hl, th, None) = true ->
  (forall b, In b bookings -> Booking.show_id b = Show.show_id sh ->
             Booking.booking_status b <> "Confirmed") ->
  ~ In (Show.show_id sh) (map fst (P2.booked_seats bookings booking_seats))
  /\ In (sh, mv, hl, th, None)
        (P2.selected_sources today shows movies halls theaters bookings
                             booking_seats)
  /\ forall r,
      In r (P2.selected_sources today shows movies halls theaters bookings
                                booking_seats) ->
      P2.s r = sh ->
      P2.booked_count r = None
      /\ coalesce (P2.booked_count r) 0 = 0
      /\ P2.available_seats (P2.select r) = Hall.seating_capacity (P2.h r) - 0.
Proof.
  intros Hc Hw Hno.
  pose proof (no_confirmed_no_group _ booking_seats _
                (no_confirmed_no_attachment _ _ Hno)) as Hg.
  split; [exact Hg|split].
  - apply in_sources. split; [|exact Hw].
    apply in_left_join_none. split; [exact Hc|].
    intros [k v] Hin. simpl. apply Z.eqb_neq. intros Hk. apply Hg.
    rewrite Hk. now apply (in_map fst) in Hin.
  - intros r Hin Hs. apply in_sources in Hin as (Hin & _).
    destruct r as [c [[k v]|]].
    + exfalso. apply in_left_join_some in Hin as (_ & Hin & Hon).
      simpl in Hon. apply Z.eqb_eq in Hon. apply Hg.
      unfold P2.s in Hs. simpl in Hs. rewrite <- Hs, Hon.
      now apply (in_map fst) in Hin.
    + simpl. auto.
Qed.

End Availability.

(** ** Running script actions *)

Lemma extend_extend w tr1 tr2 :
  extend (extend w tr1) tr2 = extend w (tr1 ++ tr2).
Proof. unfold extend. simpl. now rewrite app_assoc. Qed.

Lemma extend_nil w : extend w [] = w.
Proof. destruct w. unfold extend. simpl. now rewrite app_nil_r. Qed.

Lemma bind_returned {A B : Type} (c : M A) (k : A -> M B) w a w' :
  c w = (Returned a, w') -> bind c k w = k a w'.
Proof. unfold bind. now intros ->. Qed.

Lemma bind_raised {A B : Type} (c : M A) (k : A -> M B) w e w' :
  c w = (Raised e, w') -> bind c k w = (Raised e, w').
Proof. unfold bind. now intros ->. Qed.

Lemma bind_exited {A B : Type} (c : M A) (k : A -> M B) w n w' :
  c w = (Exited n, w') -> bind c k w = (Exited n, w').
Proof. unfold bind. now intros ->. Qed.

Lemma bind_ext {A B : Type} (c : M A) (k1 k2 : A -> M B) w :
  (forall a w', k1 a w' = k2 a w') -> bind c k1 w = bind c k2 w.
Proof.
  intros H. unfold bind. destruct (c w) as [[a|e|n] w']; auto.
Qed.

(** A bind that returns went through both of its halves. *)
Lemma bind_inv {A B : Type} (c : M A) (k : A -> M B) w b w2 :
  bind c k w = (Returned b, w2) ->
  exists a w1, c w = (Returned a, w1) /\ k a w1 = (Returned b, w2).
Proof.
  unfold bind. destruct (c w) as [[a|e|n] w1]; try discriminate. eauto.
Qed.

Lemma conn_execute_ok {A : Type} st (run : string -> database -> exn + A)
      w d a :
  db_file w = Some d -> run (today w) d = inr a ->
  conn_execute st run w = (Returned a, extend w [Executed st]).
Proof. unfold conn_execute. now intros -> ->. Qed.

Lemma conn_execute_err {A : Type} st (run : string -> database -> exn + A)
      w d e :
  db_file w = Some d -> run (today w) d = inl e ->
  conn_execute st run w = (Raised e, extend w [Executed st]).
Proof. unfold conn_execute. now intros -> ->. Qed.

Lemma get_connection_open w d :
  db_file w = Some d ->
  get_connection w
  = (Returned tt, extend w [Connected; Executed Pragma_foreign_keys_on]).
Proof.
  intros Hd. unfold get_connection, bind, sqlite3_connect, conn_execute, ret.
  simpl. rewrite Hd. unfold log, set_db, extend. simpl.
  now rewrite Hd, <- app_assoc.
Qed.

(** ** The Verifier *)

Lemma check_table_ok d table min_count acc w count :
  db_file w = Some d -> count_star d table = inr count ->
  exists tr,
    check_table (table, min_count) acc w
    = (Returned (acc && (count >=? min_count)), extend w tr).
Proof.
  intros Hd Hc. unfold check_table.
  erewrite bind_returned by (apply (conn_execute_ok _ _ _ d); eauto).
  unfold bind, print, emit, ret, log. rewrite extend_extend.
  eexists. f_equal. f_equal.
  destruct (count >=? min_count); simpl; now rewrite ?andb_true_r, ?andb_false_r.
Qed.

Lemma check_table_err d table min_count acc w e :
  db_file w = Some d -> count_star d table = inl e ->
  check_table (table, min_count) acc w
  = (Raised e, extend w [Executed (Select_count table)]).
Proof.
  intros Hd Hc. unfold check_table.
  now erewrite bind_raised by (apply (conn_execute_err _ _ _ d); eauto).
Qed.

(** The loop returns the conjunction of the checks when every count query
    succeeds. *)
Lemma for_each_check_table_ok d items :
  (forall item, In item items -> exists n, count_star d (fst item) = inr n) ->
  forall acc w,
    db_file w = Some d ->
    exists tr,
      for_each items check_table acc w
      = (Returned (acc && forallb (check_ok d) items), extend w tr).
Proof.
  induction items as [|[table min_count] items IH]; intros Hall acc w Hd.
  - exists []. simpl. unfold ret. now rewrite andb_true_r, extend_nil.
  - destruct (Hall (table, min_count) (or_introl eq_refl)) as (n & Hn).
    simpl in Hn.
    destruct (check_table_ok d table min_count acc w n Hd Hn) as (tr1 & H1).
    destruct (IH (fun it Hit => Hall it (or_intror Hit))
                 (acc && (n >=? min_count)) (extend w tr1) Hd) as (tr2 & H2).
    exists (tr1 ++ tr2). simpl.
    rewrite (bind_returned _ _ _ _ _ H1), H2, extend_extend.
    unfold check_ok at 2. simpl. rewrite Hn. now rewrite andb_assoc.
Qed.

(** The loop raises at the first count query that fails. *)
Lemma for_each_check_table_returns d items :
  forall acc w b w',
    db_file w = Some d ->
    for_each items check_table acc w = (Returned b, w') ->
    forall item, In item items -> exists n, count_star d (fst item) = inr n.
Proof.
  induction items as [|[table min_count] items IH];
    intros acc w b w' Hd Hrun item Hin; [contradiction|].
  simpl in Hrun. destruct (count_star d table) as [e|n] eqn:Hc.
  - rewrite (bind_raised _ _ _ _ _ (check_table_err d _ min_count acc w e Hd Hc))
      in Hrun.
    discriminate.
  - destruct (check_table_ok d table min_count acc w n Hd Hc) as (tr1 & H1).
    rewrite (bind_returned _ _ _ _ _ H1) in Hrun.
    destruct Hin as [<-|Hin]; [eauto|].
    eapply (IH _ (extend w tr1)); eauto.
Qed.

Lemma verify_setup_absent w :
  db_file w = None ->
  verify_setup w = (Exited 1, extend w [Printed db_not_found_message]).
Proof.
  intros Hd. unfold verify_setup, bind, os_path_exists. now rewrite Hd.
Qed.

Lemma verify_setup_returns w d n :
  db_file w = Some d ->
  (forall item, In item expected -> exists n, count_star d (fst item) = inr n) ->
  count_star d "Show" = inr n ->
  exists checks,
    verify_setup w
    = (Returned (blocking_ok d),
       extend w
         ([Connected; Executed Pragma_foreign_keys_on;
           Printed "Verifying database setup..."]
            ++ checks
            ++ [Executed (Select_count "Show"); Printed (show_line n); Closed;
                Printed (verdict_line (blocking_ok d))])).
Proof.
  intros Hd Hall Hn. unfold verify_setup.
  unfold bind at 1. unfold os_path_exists. rewrite Hd. simpl negb.
  unfold when. unfold bind at 1. unfold ret at 1.
  rewrite (bind_returned _ _ _ _ _ (get_connection_open w d Hd)).
  set (w1 := extend w _).
  destruct (for_each_check_table_ok d expected Hall true
              (extend w1 [Printed "Verifying database setup..."]) Hd)
    as (tr & Hloop).
  exists tr.
  assert (Hbody :
            try_finally
              (print "Verifying database setup..." ;;
               all_ok <- for_each expected check_table true ;;
               show_count <-
                 conn_execute (Select_count "Show")
                   (fun _ d => count_star d "Show") ;;
               let status := if show_count >=? 20 then "OK" else "WARN" in
               print (count_line "Show" show_count 20 status) ;;
               ret all_ok)
              conn_close w1
            = (Returned (blocking_ok d),
               extend w1
                 (Printed "Verifying database setup..." :: tr
                    ++ [Executed (Select_count "Show"); Printed (show_line n);
                        Closed]))).
  { unfold try_finally. unfold bind at 1. unfold print at 1, emit at 1.
    unfold log. rewrite (bind_returned _ _ _ _ _ Hloop).
    erewrite bind_returned
      by (apply (conn_execute_ok _ _ _ d); [exact Hd|exact Hn]).
    unfold bind, conn_close, print, emit, ret, log.
    rewrite !extend_extend. simpl app. rewrite <- ?app_assoc. reflexivity. }
  rewrite (bind_returned _ _ _ _ _ Hbody).
  unfold w1. rewrite extend_extend.
  destruct (blocking_ok d); unfold bind, print, emit, ret, log;
    rewrite extend_extend; simpl app; rewrite <- ?app_assoc; simpl app;
    reflexivity.
Qed.

Lemma try_finally_close_inv {A : Type} (body : M A) w a w' :
  try_finally body conn_close w = (Returned a, w') ->
  exists w1, body w = (Returned a, w1) /\ w' = extend w1 [Closed].
Proof.
  unfold try_finally, conn_close, emit, log.
  destruct (body w) as [[a'|e|n] w1]; intros H; inversion H; eauto.
Qed.

Lemma conn_execute_inv {A : Type} st (run : string -> database -> exn + A)
      w a w' :
  conn_execute st run w = (Returned a, w') ->
  exists d, db_file w = Some d /\ run (today w) d = inr a
            /\ w' = extend w [Executed st].
Proof.
  unfold conn_execute, log. destruct (db_file w) as [d|]; [|discriminate].
  destruct (run (today w) d) as [e|a'] eqn:Hr; intros H; inversion H.
  subst. exists d. auto.
Qed.

(** The Verifier returns only after all six count queries succeeded. *)
Lemma verify_setup_inv w b w' :
  verify_setup w = (Returned b, w') ->
  exists d n,
    db_file w = Some d
    /\ (forall item, In item expected ->
                     exists n, count_star d (fst item) = inr n)
    /\ count_star d "Show" = inr n.
Proof.
  intros H. destruct (db_file w) as [d|] eqn:Hd.
  2:{ rewrite (verify_setup_absent w Hd) in H. discriminate. }
  exists d. unfold verify_setup in H.
  apply bind_inv in H as (found & w0 & Hf & H).
  unfold os_path_exists in Hf. rewrite Hd in Hf. inversion Hf; subst.
  apply bind_inv in H as ([] & w1 & Hw & H). inversion Hw; subst.
  rewrite (bind_returned _ _ _ _ _ (get_connection_open _ d Hd)) in H.
  apply bind_inv in H as (all_ok & w2 & Htry & _).
  apply try_finally_close_inv in Htry as (w3 & Hbody & _).
  apply bind_inv in Hbody as ([] & w4 & Hp & Hbody). inversion Hp; subst.
  apply bind_inv in Hbody as (acc & w5 & Hloop & Hbody).
  apply bind_inv in Hbody as (n & w6 & Hshow & _).
  assert (Hall : forall item, In item expected ->
                              exists n, count_star d (fst item) = inr n).
  { eapply for_each_check_table_returns; [|exact Hloop]. exact Hd. }
  exists n. split; [reflexivity|]. split; [exact Hall|].
  apply conn_execute_inv in Hshow as (d' & Hd' & Hc & _).
  destruct (for_each_check_table_ok d expected Hall true
              (log (Printed "Verifying database setup...")
                 (extend w1 [Connected; Executed Pragma_foreign_keys_on])) Hd)
    as (tr & Hl).
  rewrite Hl in Hloop. inversion Hloop; subst. simpl in Hd'.
  rewrite Hd in Hd'. now inversion Hd'; subst.
Qed.

Lemma forallb_false_iff {A : Type} (f : A -> bool) l :
  forallb f l = false <-> exists x, In x l /\ f x = false.
Proof.
  induction l as [|y l IH]; simpl.
  - split; [discriminate|]. now intros (x & [] & _).
  - rewrite andb_false_iff, IH. split.
    + intros [Hy|(x & Hx & Hf)]; eauto.
    + intros (x & [<-|Hx] & Hf); eauto.
Qed.

Lemma count_star_with_shows d shows item :
  In item expected ->
  count_star (with_shows d shows) (fst item) = count_star d (fst item).
Proof.
  unfold expected. simpl.
  intros [<-|[<-|[<-|[<-|[<-|[]]]]]]; reflexivity.
Qed.

Lemma blocking_ok_with_shows d shows :
  blocking_ok (with_shows d shows) = blocking_ok d.
Proof. reflexivity. Qed.

(** C2: whenever the six count queries succeed the Verifier returns, and
    its boolean is false exactly when one of the five blocking checks
    (Theater >= 2, Movie >= 6, Hall >= 5, Seat >= 9, Booking >= 3) finds
    fewer rows than its minimum; the [Show] check only prints OK or WARN, and
    whatever the [Show] table holds the returned boolean is the same. *)
Theorem verify_setup_result (w : world) (d : database) (show_count : Z) :
  db_file w = Some d ->
  (forall item, In item expected ->
                exists n, count_star d (fst item) = inr n) ->
  count_star d "Show" = inr show_count ->
  exists b tr,
    verify_setup w = (Returned b, extend w tr)
    /\ (b = false
        <-> exists table min_count count,
          In (table, min_count) expected
          /\ count_star d table = inr count
          /\ count < min_count)
    /\ In (Printed (count_line "Show" show_count 20
                      (if show_count >=? 20 then "OK" else "WARN"))) tr
    /\ forall shows w2,
        db_file w2 = Some (with_shows d shows) ->
        exists tr2, verify_setup w2 = (Returned b, extend w2 tr2).
Proof.
  intros Hd Hall Hshow.
  destruct (verify_setup_returns w d show_count Hd Hall Hshow) as (checks & Hrun).
  exists (blocking_ok d). eexists. split; [exact Hrun|]. split; [|split].
  - unfold blocking_ok. rewrite forallb_false_iff. split.
    + intros ([table min_count] & Hin & Hf).
      destruct (Hall _ Hin) as (n & Hn). simpl in Hn.
      exists table, min_count, n. repeat split; try assumption.
      unfold check_ok in Hf. simpl in Hf. rewrite Hn in Hf.
      rewrite Z.geb_leb in Hf. now apply Z.leb_gt.
    + intros (table & min_count & n & Hin & Hn & Hlt).
      exists (table, min_count). split; [assumption|].
      unfold check_ok. simpl. rewrite Hn, Z.geb_leb. now apply Z.leb_gt.
  - rewrite !in_app_iff. right. right. right. left. reflexivity.
  - intros shows w2 Hd2.
    destruct (verify_setup_returns w2 (with_shows d shows)
                (Z.of_nat (List.length shows)) Hd2) as (checks2 & Hrun2).
    + intros item Hin. rewrite count_star_with_shows by assumption. auto.
    + reflexivity.
    + rewrite blocking_ok_with_shows in Hrun2. eauto.
Qed.

Lemma verify_setup_result_witness :
  exists b tr,
    verify_setup SampleWorld.populated
    = (Returned b, extend SampleWorld.populated tr).
Proof.
  destruct (verify_setup_result SampleWorld.populated Sample.db 7)
    as (b & tr & Hrun & _).
  - reflexivity.
  - unfold expected. simpl.
    intros item [<-|[<-|[<-|[<-|[<-|[]]]]]]; eexists; reflexivity.
  - reflexivity.
  - exists b, tr. exact Hrun.
Defined.

(** ** The Availability Reporter, the Orchestrator and the Schema Loader *)

Lemma length_append (a b : string) :
  String.length (a ++ b) = (String.length a + String.length b)%nat.
Proof. induction a as [|c a IH]; simpl; [reflexivity|now rewrite IH]. Qed.

Lemma length_times c n : String.length (Py.times c n) = n.
Proof. induction n as [|n IH]; simpl; [reflexivity|now rewrite IH]. Qed.

Lemma length_ljust s width : (width <= String.length (Py.ljust s width))%nat.
Proof. unfold Py.ljust. rewrite length_append, length_times. lia. Qed.

(** A line of eight cells, each at least as wide as its column's name, is
    longer than the message of the empty case. *)
Lemma wide_line (c0 c1 c2 c3 c4 c5 c6 c7 : string) :
  (11 <= String.length c0)%nat -> (8 <= String.length c1)%nat ->
  (6 <= String.length c2)%nat -> (6 <= String.length c3)%nat ->
  (9 <= String.length c4)%nat -> (11 <= String.length c5)%nat ->
  (10 <= String.length c6)%nat -> (15 <= String.length c7)%nat ->
  (92 <= String.length
           ("  " ++ Py.join "  " [c0; c1; c2; c3; c4; c5; c6; c7]))%nat.
Proof.
  intros. unfold Py.join. cbn [String.concat].
  rewrite !length_append. cbn [String.length]. lia.
Qed.

Section ScriptFacts.

Variable executescript : string -> database -> database * option exn.
Variable float_repr : spec_float -> string.

Lemma col_widths_P2 rows :
  exists w0 w1 w2 w3 w4 w5 w6 w7,
    col_widths float_repr P2.columns rows = [w0; w1; w2; w3; w4; w5; w6; w7]
    /\ (11 <= w0 /\ 8 <= w1 /\ 6 <= w2 /\ 6 <= w3 /\ 9 <= w4 /\ 11 <= w5
        /\ 10 <= w6 /\ 15 <= w7)%nat.
Proof.
  unfold col_widths, Py.enumerate, P2.columns.
  cbn [List.length seq combine map].
  do 8 eexists. split; [reflexivity|].
  repeat split; apply Nat.le_max_l.
Qed.

Lemma no_shows_message_length : String.length no_shows_message = 79%nat.
Proof. reflexivity. Qed.

Lemma header_wide rows :
  (92 <= String.length
           (header P2.columns (col_widths float_repr P2.columns rows)))%nat.
Proof.
  destruct (col_widths_P2 rows)
    as (w0 & w1 & w2 & w3 & w4 & w5 & w6 & w7 & -> & Hw).
  unfold header, Py.enumerate, P2.columns.
  cbn [List.length seq combine map nth].
  apply wide_line;
    (eapply Nat.le_trans; [|apply length_ljust]); tauto.
Qed.

Lemma separator_wide rows :
  (92 <= String.length
           (separator (col_widths float_repr P2.columns rows)))%nat.
Proof.
  destruct (col_widths_P2 rows)
    as (w0 & w1 & w2 & w3 & w4 & w5 & w6 & w7 & -> & Hw).
  unfold separator. cbn [map].
  apply wide_line; rewrite length_times; tauto.
Qed.

Lemma row_line_wide rows row :
  (92 <= String.length
           (row_line float_repr (col_widths float_repr P2.columns rows) row))%nat.
Proof.
  destruct (col_widths_P2 rows)
    as (w0 & w1 & w2 & w3 & w4 & w5 & w6 & w7 & -> & Hw).
  unfold row_line, Py.enumerate, cells.
  cbn [List.length seq combine map nth].
  apply wide_line;
    (eapply Nat.le_trans; [|apply length_ljust]); tauto.
Qed.

(** The message of the empty case is not a line of the table. *)
Lemma no_shows_message_not_in_table rows :
  rows <> [] ->
  ~ In no_shows_message (report_lines float_repr P2.columns rows).
Proof.
  destruct rows as [|row rows]; [congruence|]. intros _ Hin.
  unfold report_lines in Hin. set (all := row :: rows) in *.
  destruct Hin as [H|[H|H]].
  - pose proof (header_wide all) as Hw. rewrite H in Hw.
    rewrite no_shows_message_length in Hw. lia.
  - pose proof (separator_wide all) as Hw. rewrite H in Hw.
    rewrite no_shows_message_length in Hw. lia.
  - apply in_app_iff in H as [H|[H|[]]].
    + apply in_map_iff in H as (r & H & _).
      pose proof (row_line_wide all r) as Hw. rewrite H in Hw.
      rewrite no_shows_message_length in Hw. lia.
    + discriminate H.
Qed.

Lemma for_each_print {A : Type} (line : A -> string) (l : list A) w :
  for_each l (fun x _ => print (line x)) tt w
  = (Returned tt, extend w (map (fun x => Printed (line x)) l)).
Proof.
  revert w. induction l as [|x l IH]; intros w; simpl.
  - unfold ret. now rewrite extend_nil.
  - unfold bind, print, emit, log. rewrite IH, extend_extend. reflexivity.
Qed.

Lemma report_printed rows w :
  match rows with
  | [] => print no_shows_message
  | _ :: _ => print_table float_repr P2.columns rows
  end w
  = (Returned tt,
     extend w (map Printed (report_lines float_repr P2.columns rows))).
Proof.
  destruct rows as [|row rows]; [reflexivity|].
  unfold print_table, report_lines. set (all := row :: rows).
  unfold bind at 1. unfold print at 1, emit, log.
  unfold bind at 1. unfold print at 1, emit, log.
  rewrite (bind_returned _ _ _ _ _ (for_each_print _ all _)).
  unfold print, emit, log. rewrite !extend_extend.
  cbn [map List.app]. rewrite map_app, map_map. reflexivity.
Qed.

Lemma test_p2_query_absent w :
  db_file w = None ->
  test_p2_query float_repr w
  = (Exited 1, extend w [Printed db_not_found_message]).
Proof.
  intros Hd. unfold test_p2_query, bind, os_path_exists. now rewrite Hd.
Qed.

Lemma test_p2_query_rows w d rows :
  db_file w = Some d ->
  P2.query (today w) d = inr rows ->
  test_p2_query float_repr w
  = (Returned true,
     extend w
       ([Connected; Executed Pragma_foreign_keys_on; Printed running_message;
         Executed P2_query]
          ++ map Printed (report_lines float_repr P2.columns rows)
          ++ [Printed passed_message; Closed])).
Proof.
  intros Hd Hq. unfold test_p2_query.
  unfold bind at 1. unfold os_path_exists. rewrite Hd. simpl negb.
  unfold when. unfold bind at 1. unfold ret at 1.
  rewrite (bind_returned _ _ _ _ _ (get_connection_open w d Hd)).
  unfold try_finally. unfold bind at 1. unfold print at 1, emit at 1.
  erewrite bind_returned
    by (apply (conn_execute_ok _ _ _ d); [exact Hd|exact Hq]).
  rewrite (bind_returned _ _ _ _ _ (report_printed rows _)).
  unfold bind, conn_close, print, emit, ret, log.
  rewrite !extend_extend. cbn [List.app]. rewrite <- ?app_assoc.
  reflexivity.
Qed.

Lemma test_p2_query_fails w d e :
  db_file w = Some d ->
  P2.query (today w) d = inl e ->
  test_p2_query float_repr w
  = (Raised e,
     extend w
       [Connected; Executed Pragma_foreign_keys_on; Printed running_message;
        Executed P2_query; Closed]).
Proof.
  intros Hd Hq. unfold test_p2_query.
  unfold bind at 1. unfold os_path_exists. rewrite Hd. simpl negb.
  unfold when. unfold bind at 1. unfold ret at 1.
  rewrite (bind_returned _ _ _ _ _ (get_connection_open w d Hd)).
  unfold try_finally. unfold bind at 1. unfold print at 1, emit at 1.
  erewrite bind_raised
    by (apply (conn_execute_err _ _ _ d); [exact Hd|exact Hq]).
  unfold conn_close, emit, log. rewrite !extend_extend. reflexivity.
Qed.

Lemma test_p2_query_returns_true w b w' :
  test_p2_query float_repr w = (Returned b, w') -> b = true.
Proof.
  destruct (db_file w) as [d|] eqn:Hd.
  - destruct (P2.query (today w) d) as [e|rows] eqn:Hq.
    + rewrite (test_p2_query_fails w d e Hd Hq). discriminate.
    + rewrite (test_p2_query_rows w d rows Hd Hq). congruence.
  - rewrite (test_p2_query_absent w Hd). discriminate.
Qed.

Lemma run_all_tests_unfold w :
  run_all_tests float_repr w
  = (ok <- verify_setup ;;
     print "" ;;
     p2 <- test_p2_query float_repr ;;
     let ok := p2 && ok in
     print "" ;;
     print (summary_line ok) ;;
     ret ok) (extend w banner).
Proof.
  unfold run_all_tests, banner.
  unfold bind at 1. unfold print at 1, emit, log.
  unfold bind at 1. unfold print at 1, emit, log.
  unfold bind at 1. unfold print at 1, emit, log.
  rewrite !extend_extend. cbn [List.app].
  apply bind_ext. intros ok w1.
  apply bind_ext. intros _ w2.
  apply bind_ext. intros p2 w3.
  apply bind_ext. intros _ w4.
  now destruct (p2 && ok).
Qed.

(** X16: when the store file is absent the Verifier's exit ends the
    Orchestrator too, with status 1 right after the banner and the error
    line: the Reporter is reached only after the Verifier has returned. *)
Lemma run_all_tests_absent w :
  db_file w = None ->
  run_all_tests float_repr w
  = (Exited 1, extend w (banner ++ [Printed db_not_found_message])).
Proof.
  intros Hd. rewrite run_all_tests_unfold.
  assert (Hb : db_file (extend w banner) = None) by exact Hd.
  rewrite (bind_exited _ _ _ _ _ (verify_setup_absent _ Hb)).
  now rewrite extend_extend.
Qed.

(** X15: nothing in [main] catches the exit of a missing resource: with
    [--setup] and no schema file, or without [--setup], with [--verify] or
    [--test-p2] and no store file, the process ends with status 1 after the
    error line, and no later flag is acted on. *)
Lemma main_missing_resource (a : args) w :
  any_flag a = true ->
  (setup a = true /\ schema_file w = None
   -> main executescript float_repr a w
      = (Exited 1, extend w [Printed schema_not_found_message]))
  /\ (setup a = false /\ (verify a = true \/ test_p2 a = true) /\ db_file w = None
      -> main executescript float_repr a w
         = (Exited 1, extend w [Printed db_not_found_message])).
Proof.
  intros Hany. unfold main. rewrite Hany. simpl negb. split.
  - intros (Hs & Hw). rewrite Hs. unfold when at 1 2.
    unfold bind at 1. unfold ret at 1. apply bind_exited.
    unfold setup_database, bind, os_path_exists. now rewrite Hw.
  - intros (Hs & Hf & Hw). rewrite Hs. unfold when at 1 2.
    unfold bind at 1. unfold ret at 1. unfold bind at 1. unfold ret at 1.
    destruct (verify a).
    + apply bind_exited. unfold when.
      now rewrite (bind_exited _ _ _ _ _ (verify_setup_absent w Hw)).
    + destruct Hf as [Hf|Hf]; [discriminate|]. rewrite Hf.
      unfold when at 1. unfold bind at 1. unfold ret at 1.
      apply bind_exited. unfold when.
      now rewrite (bind_exited _ _ _ _ _ (test_p2_query_absent w Hw)).
Qed.

(** C6: once the Verifier has returned, with whichever boolean, the
    Availability Reporter is run on the world it left -- the P2 query is
    executed -- and the Orchestrator returns the conjunction of the two
    booleans; nothing but the Reporter's own exit or exception keeps it from
    returning. *)
Theorem run_all_tests_runs_both (w : world) (b1 : bool) (w1 : world) :
  verify_setup (extend w banner) = (Returned b1, w1) ->
  exists r2 tr2,
    test_p2_query float_repr (extend w1 [Printed ""])
    = (r2, extend (extend w1 [Printed ""]) tr2)
    /\ In (Executed P2_query) tr2
    /\ run_all_tests float_repr w
       = match r2 with
         | Returned b2 =>
             (Returned (b2 && b1),
              extend (extend (extend w1 [Printed ""]) tr2)
                [Printed ""; Printed (summary_line (b2 && b1))])
         | Raised e => (Raised e, extend (extend w1 [Printed ""]) tr2)
         | Exited n => (Exited n, extend (extend w1 [Printed ""]) tr2)
         end.
Proof.
  intros Hv.
  destruct (verify_setup_inv _ _ _ Hv) as (d & n & Hd & Hall & Hshow).
  destruct (verify_setup_returns _ d n Hd Hall Hshow) as (checks & Hrun).
  rewrite Hrun in Hv. inversion Hv; subst b1 w1. clear Hv.
  set (w1 := extend (extend w banner) _) in *.
  assert (Hd1 : db_file (extend w1 [Printed ""]) = Some d) by exact Hd.
  rewrite run_all_tests_unfold, (bind_returned _ _ _ _ _ Hrun).
  fold w1. unfold bind at 1. unfold print at 1, emit, log.
  destruct (P2.query (today (extend w1 [Printed ""])) d) as [e|rows] eqn:Hq.
  - exists (Raised e). eexists.
    rewrite (test_p2_query_fails _ d e Hd1 Hq).
    split; [reflexivity|]. split; [simpl; tauto|].
    now erewrite bind_raised by (apply (test_p2_query_fails _ d e Hd1 Hq)).
  - exists (Returned true). eexists.
    rewrite (test_p2_query_rows _ d rows Hd1 Hq).
    split; [reflexivity|]. split; [simpl; tauto|].
    erewrite bind_returned by (apply (test_p2_query_rows _ d rows Hd1 Hq)).
    unfold bind, print, emit, ret, log. rewrite !extend_extend.
    reflexivity.
Qed.

(** C7: Teardown returns normally from every world and leaves no store
    file: a present file is removed, an absent one gives the "not found"
    line, and a second run right after the first gives that line too. *)
Theorem teardown_idempotent (w : world) :
  exists w1,
    teardown_database w = (Returned tt, w1)
    /\ db_file w1 = None
    /\ (forall d, db_file w = Some d ->
                  w1 = extend (set_db None w)
                         [Removed DB_FILE; Printed removed_message])
    /\ (db_file w = None ->
        w1 = extend w [Printed nothing_to_remove_message])
    /\ teardown_database w1
       = (Returned tt, extend w1 [Printed nothing_to_remove_message]).
Proof.
  assert (Habsent : forall w0, db_file w0 = None ->
                             teardown_database w0
                             = (Returned tt,
                                extend w0 [Printed nothing_to_remove_message])).
  { intros w0 H0. unfold teardown_database, bind, os_path_exists.
    now rewrite H0. }
  destruct (db_file w) as [d|] eqn:Hd.
  - exists (extend (set_db None w) [Removed DB_FILE; Printed removed_message]).
    split; [|split; [reflexivity|split; [reflexivity|split]]].
    + unfold teardown_database, bind, os_path_exists, os_remove.
      rewrite Hd. simpl. rewrite Hd. unfold print, emit, log.
      now rewrite extend_extend.
    + discriminate.
    + now apply Habsent.
  - exists (extend w [Printed nothing_to_remove_message]).
    split; [now apply Habsent|].
    split; [exact Hd|]. split; [discriminate|]. split; [reflexivity|].
    now apply Habsent.
Qed.

(** C8: when the schema file is absent the Schema Loader, and when the
    store file is absent the Verifier and the Availability Reporter, print
    their error line and exit with status 1; the error line is the only
    event of the run and both files are as they were. *)
Theorem missing_resource_exits (w : world) :
  (schema_file w = None ->
   setup_database executescript w
   = (Exited 1, extend w [Printed schema_not_found_message]))
  /\ (db_file w = None ->
      verify_setup w = (Exited 1, extend w [Printed db_not_found_message]))
  /\ (db_file w = None ->
      test_p2_query float_repr w
      = (Exited 1, extend w [Printed db_not_found_message])).
Proof.
  split; [|split].
  - intros Hs. unfold setup_database, bind, os_path_exists. now rewrite Hs.
  - apply verify_setup_absent.
  - apply test_p2_query_absent.
Qed.

(** C9: when the query succeeds with no rows the Reporter prints the
    "no shows" line and returns true; when it succeeds with rows that line
    is not printed; when it fails the exception propagates, and neither that
    line nor the "passed" line is printed. *)
Theorem empty_result_reported (w : world) (d : database) :
  db_file w = Some d ->
  (P2.query (today w) d = inr [] ->
   test_p2_query float_repr w
   = (Returned true,
      extend w
        [Connected; Executed Pragma_foreign_keys_on; Printed running_message;
         Executed P2_query; Printed no_shows_message; Printed passed_message;
         Closed]))
  /\ (forall rows,
         rows <> [] -> P2.query (today w) d = inr rows ->
         exists tr,
           test_p2_query float_repr w = (Returned true, extend w tr)
           /\ ~ In (Printed no_shows_message) tr)
  /\ (forall e,
         P2.query (today w) d = inl e ->
         exists tr,
           test_p2_query float_repr w = (Raised e, extend w tr)
           /\ ~ In (Printed no_shows_message) tr
           /\ ~ In (Printed passed_message) tr).
Proof.
  intros Hd. split; [|split].
  - intros Hq. now rewrite (test_p2_query_rows w d [] Hd Hq).
  - intros rows Hne Hq. eexists. split.
    + apply (test_p2_query_rows w d rows Hd Hq).
    + rewrite !in_app_iff, in_map_iff.
      intros [H|[(line & Hl & Hin)|H]].
      * simpl in H. repeat (destruct H as [H|H]; [discriminate H|]).
        contradiction.
      * inversion Hl; subst.
        now apply (no_shows_message_not_in_table rows Hne).
      * simpl in H. repeat (destruct H as [H|H]; [discriminate H|]).
        contradiction.
  - intros e Hq. eexists. split; [apply (test_p2_query_fails w d e Hd Hq)|].
    split; intros H; simpl in H;
      repeat (destruct H as [H|H]; [discriminate H|]); contradiction.
Qed.

(** C10: whenever its query succeeds the Reporter returns true; true is
    the only boolean it ever returns; so a boolean returned by the
    Orchestrator is the one the Verifier returned. *)
Theorem reporter_always_true (w : world) :
  (forall d rows,
      db_file w = Some d -> P2.query (today w) d = inr rows ->
      exists tr, test_p2_query float_repr w = (Returned true, extend w tr))
  /\ (forall b w', test_p2_query float_repr w = (Returned b, w') -> b = true)
  /\ (forall b w',
         run_all_tests float_repr w = (Returned b, w') ->
         exists w1, verify_setup (extend w banner) = (Returned b, w1)).
Proof.
  split; [|split].
  - intros d rows Hd Hq. eexists. apply (test_p2_query_rows w d rows Hd Hq).
  - apply test_p2_query_returns_true.
  - intros b w' H. rewrite run_all_tests_unfold in H.
    apply bind_inv in H as (ok & w1 & Hv & H).
    apply bind_inv in H as ([] & w2 & _ & H).
    apply bind_inv in H as (p2 & w3 & Hp & H).
    apply test_p2_query_returns_true in Hp. subst p2.
    apply bind_inv in H as ([] & w4 & _ & H).
    apply bind_inv in H as ([] & w5 & _ & H).
    inversion H; subst. eauto.
Qed.

End ScriptFacts.

(** ** The result the Reporter fetches *)

(** What [P2.query] returns on a store that has the six tables it names. *)
Lemma query_rows today theaters movies halls shows seats bookings
      booking_seats :
  P2.query today
    (mkdb (Some theaters) (Some movies) (Some halls) (Some shows) seats
          (Some bookings) (Some booking_seats))
  = inr (map P2.select
             (P2.selected_sources today shows movies halls theaters bookings
                                  booking_seats)).
Proof. reflexivity. Qed.

Section ReporterResult.
Import Sql SqlFacts P2Facts.

Variable float_repr : spec_float -> string.

Variable date : string.
Variables (shows : list Show.row) (movies : list Movie.row)
          (halls : list Hall.row) (theaters : list Theater.row)
          (seats : option (list Seat.row))
          (bookings : list Booking.row)
          (booking_seats : list Booking_Seat.row).

(** C1 (as the code has it): on a store with the six tables, the query
    returns one row for each selected show, and in every such row
    [available_seats] is the hall's [seating_capacity] minus the number of
    seat attachments of the show's bookings whose status is exactly
    'Confirmed' -- one for each [Booking_Seat] row naming a seat, so a seat
    held by two such bookings counts twice -- provided that difference is a
    64-bit INTEGER; that is the number of distinct seats whenever no seat is
    attached twice, and with no Confirmed booking it is the capacity
    itself. *)
Theorem available_seats_counts_attachments :
  P2.query date
    (mkdb (Some theaters) (Some movies) (Some halls) (Some shows) seats
          (Some bookings) (Some booking_seats))
  = inr (map P2.select
             (P2.selected_sources date shows movies halls theaters bookings
                                  booking_seats))
  /\ forall r,
      In r (P2.selected_sources date shows movies halls theaters bookings
                                booking_seats) ->
      int64 (Hall.seating_capacity (P2.h r)
             - Seats.attachments bookings booking_seats
                 (Show.show_id (P2.s r))) ->
      P2.available_seats (P2.select r)
      = Hall.seating_capacity (P2.h r)
        - Seats.attachments bookings booking_seats (Show.show_id (P2.s r))
      /\ (NoDup (Seats.attached bookings booking_seats
                   (Show.show_id (P2.s r))) ->
          P2.available_seats (P2.select r)
          = Hall.seating_capacity (P2.h r)
            - Seats.distinct bookings booking_seats (Show.show_id (P2.s r)))
      /\ (Seats.confirmed_bookings bookings (Show.show_id (P2.s r)) = [] ->
          P2.available_seats (P2.select r) = Hall.seating_capacity (P2.h r)).
Proof.
  split; [apply query_rows|]. intros r Hin _.
  now apply (source_available_seats date shows movies halls theaters).
Qed.

(** C3: on a store with the six tables, the query returns one row for each
    selected tuple, and a show, with the movie, hall and theater it is
    joined to, is selected exactly when the theater's name is the fixed
    constant, the show's date is the current date, and the [is_active] flags
    of the show and of the movie are both 1. *)
Theorem result_set_exactly_filtered :
  exists sources,
    P2.query date
      (mkdb (Some theaters) (Some movies) (Some halls) (Some shows) seats
            (Some bookings) (Some booking_seats))
    = inr (map P2.select sources)
    /\ forall sh mv hl th,
        (exists booked, In (sh, mv, hl, th, booked) sources)
        <-> (In sh shows /\ In mv movies /\ In hl halls /\ In th theaters
             /\ Show.movie_id sh = Movie.movie_id mv
             /\ Show.hall_id sh = Hall.hall_id hl
             /\ Hall.theater_id hl = Theater.theater_id th)
            /\ Theater.theater_name th = "PVR: Nexus"
            /\ Show.show_date sh = date
            /\ Show.is_active sh = 1
            /\ Movie.is_active mv = 1.
Proof.
  eexists. split; [apply query_rows|].
  apply sources_exactly_filtered.
Qed.

(** C5: a show that passes the filter and has no Confirmed booking has no
    group in the derived table and is still returned by the query: its row,
    built with a NULL [booked_count], is in the result, with that NULL
    coalesced to 0 in [available_seats]; and no row of that show in the
    result carries a count. *)
Theorem unbooked_show_retained
        (sh : Show.row) (mv : Movie.row) (hl : Hall.row) (th : Theater.row) :
  In sh shows -> In mv movies -> In hl halls -> In th theaters ->
  Show.movie_id sh = Movie.movie_id mv ->
  Show.hall_id sh = Hall.hall_id hl ->
  Hall.theater_id hl = Theater.theater_id th ->
  Theater.theater_name th = "PVR: Nexus" ->
  Show.show_date sh = date ->
  Show.is_active sh = 1 ->
  Movie.is_active mv = 1 ->
  (forall b, In b bookings -> Booking.show_id b = Show.show_id sh ->
             Booking.booking_status b <> "Confirmed") ->
  exists sources,
    P2.query date
      (mkdb (Some theaters) (Some movies) (Some halls) (Some shows) seats
            (Some bookings) (Some booking_seats))
    = inr (map P2.select sources)
    /\ ~ In (Show.show_id sh)
            (map fst (P2.booked_seats bookings booking_seats))
    /\ In (sh, mv, hl, th, None) sources
    /\ In (P2.select (sh, mv, hl, th, None)) (map P2.select sources)
    /\ P2.available_seats (P2.select (sh, mv, hl, th, None))
       = Hall.seating_capacity hl - coalesce None 0
    /\ forall r,
        In r sources -> P2.s r = sh ->
        P2.booked_count r = None
        /\ coalesce (P2.booked_count r) 0 = 0
        /\ P2.available_seats (P2.select r)
           = Hall.seating_capacity (P2.h r) - 0.
Proof.
  intros Hsh Hmv Hhl Hth Hm Hh Ht Hname Hdate Hs_active Hm_active Hno.
  assert (Hc : In (sh, mv, hl, th) (P2.join_chain shows movies halls theaters))
    by (apply in_join_chain; auto 10).
  assert (Hw : P2.where_clause date (sh, mv, hl, th, None) = true)
    by (apply where_clause_true; auto).
  destruct (unbooked_source_retained date shows movies halls theaters
              bookings booking_seats sh mv hl th Hc Hw Hno)
    as (Hg & Hin & Hall).
  eexists. split; [apply query_rows|].
  split; [exact Hg|]. split; [exact Hin|].
  split; [now apply in_map|]. split; [reflexivity|exact Hall].
Qed.

(** C4: on a store with the six tables the Reporter fetches the rows the
    query returns and prints one line for each, in the order fetched; of
    two fetched rows, the one whose start time is strictly smaller (in the
    store's order on the column) comes first, in the result and among the
    printed lines. *)
Theorem rows_ordered_by_start_time (w : world) :
  db_file w
  = Some (mkdb (Some theaters) (Some movies) (Some halls) (Some shows) seats
               (Some bookings) (Some booking_seats)) ->
  exists out,
    P2.query (today w)
      (mkdb (Some theaters) (Some movies) (Some halls) (Some shows) seats
            (Some bookings) (Some booking_seats))
    = inr out
    /\ test_p2_query float_repr w
       = (Returned true,
          extend w
            ([Connected; Executed Pragma_foreign_keys_on;
              Printed running_message; Executed P2_query]
               ++ map Printed (report_lines float_repr P2.columns out)
               ++ [Printed passed_message; Closed]))
    /\ forall i k ri rk,
        nth_error out i = Some ri ->
        nth_error out k = Some rk ->
        text_lt (P2.show_timing ri) (P2.show_timing rk) ->
        (i < k)%nat
        /\ nth_error (report_lines float_repr P2.columns out) (2 + i)
           = Some (row_line float_repr
                     (col_widths float_repr P2.columns out) ri)
        /\ nth_error (report_lines float_repr P2.columns out) (2 + k)
           = Some (row_line float_repr
                     (col_widths float_repr P2.columns out) rk).
Proof.
  intros Hd. eexists. split; [apply query_rows|].
  split; [apply (test_p2_query_rows float_repr w _ _ Hd), query_rows|].
  intros i k ri rk Hi Hk Hlt.
  split; [exact (rows_sorted_by_start_time _ _ _ _ _ _ _ i k ri rk Hi Hk Hlt)|].
  assert (Hline : forall rows j rj,
             nth_error rows j = Some rj ->
             nth_error (report_lines float_repr P2.columns rows) (2 + j)
             = Some (row_line float_repr
                       (col_widths float_repr P2.columns rows) rj)).
  { intros rows j rj Hj. destruct rows as [|r0 rows0]; [now destruct j|].
    unfold report_lines. cbn [Nat.add nth_error].
    rewrite nth_error_app1
      by (rewrite length_map; apply nth_error_Some; congruence).
    now apply map_nth_error. }
  split; now apply Hline.
Qed.

End ReporterResult.

(** At the sample store, show 1 has three confirmed bookings of one seat
    each in a hall of 50. *)
Lemma available_seats_counts_attachments_witness :
  In Sample.booked_source
     (P2.selected_sources "2026-01-15" Sample.shows Sample.movies Sample.halls
        Sample.theaters Sample.bookings Sample.booking_seats)
  /\ Sql.int64 (50 - 3)
  /\ P2.available_seats (P2.select Sample.booked_source)
     = Hall.seating_capacity (P2.h Sample.booked_source)
       - Seats.attachments Sample.bookings Sample.booking_seats
           (Show.show_id (P2.s Sample.booked_source)).
Proof.
  assert (H : In Sample.booked_source
                 (P2.selected_sources "2026-01-15" Sample.shows Sample.movies
                    Sample.halls Sample.theaters Sample.bookings
                    Sample.booking_seats))
    by (vm_compute; auto).
  assert (Hr : Sql.int64 (50 - 3)) by (unfold Sql.int64; lia).
  split; [exact H|]. split; [exact Hr|].
  exact (proj1 (proj2 (available_seats_counts_attachments "2026-01-15"
                         Sample.shows Sample.movies Sample.halls
                         Sample.theaters (Some Sample.seats) Sample.bookings
                         Sample.booking_seats)
                      Sample.booked_source H Hr)).
Defined.

Lemma result_set_exactly_filtered_witness :
  exists sources,
    P2.query "2026-01-15" Sample.db = inr (map P2.select sources)
    /\ exists booked,
        In (Sample.show2, Sample.movie1, Sample.hall1, Sample.theater1, booked)
           sources.
Proof.
  destruct (result_set_exactly_filtered "2026-01-15" Sample.shows
              Sample.movies Sample.halls Sample.theaters (Some Sample.seats)
              Sample.bookings Sample.booking_seats) as (sources & Hq & Hiff).
  exists sources. split; [exact Hq|].
  apply Hiff. vm_compute. intuition.
Defined.

Lemma rows_ordered_by_start_time_witness :
  exists out,
    P2.query "2026-01-15" Sample.db = inr out
    /\ nth_error out 0 = Some (P2.select Sample.unbooked_source)
    /\ nth_error out 1 = Some (P2.select Sample.booked_source).
Proof.
  destruct (rows_ordered_by_start_time SampleWorld.no_floats Sample.shows
              Sample.movies Sample.halls Sample.theaters (Some Sample.seats)
              Sample.bookings Sample.booking_seats SampleWorld.populated
              eq_refl) as (out & Hq & _ & _).
  exists out. split; [exact Hq|].
  assert (Hout : inr out = P2.query "2026-01-15" Sample.db)
    by (symmetry; exact Hq).
  vm_compute in Hout. injection Hout as ->. split; reflexivity.
Defined.

Lemma unbooked_show_retained_witness :
  exists sources,
    P2.query "2026-01-15" Sample.db = inr (map P2.select sources)
    /\ In (P2.select Sample.unbooked_source) (map P2.select sources).
Proof.
  destruct (unbooked_show_retained "2026-01-15" Sample.shows Sample.movies
              Sample.halls Sample.theaters (Some Sample.seats) Sample.bookings
              Sample.booking_seats
              Sample.show2 Sample.movie1 Sample.hall1 Sample.theater1)
    as (sources & Hq & _ & _ & Hin & _);
    try reflexivity; try (simpl; auto; fail).
  - intros b Hb Hs Hc. simpl in Hb.
    repeat (destruct Hb as [<-|Hb]; [discriminate Hs|]). contradiction.
  - exists sources. split; [exact Hq|exact Hin].
Defined.

(** C1 (as the spec words it) fails: with two Confirmed bookings of one show
    that hold the same seat, the one row the query returns takes two seats
    off the capacity of 50, not one. *)
Lemma available_seats_not_distinct_count :
  P2.query "2026-01-15" Sample.double_booked
  = inr (map P2.select [Sample.double_booked_source])
  /\ ~ (forall r,
           In r [Sample.double_booked_source] ->
           P2.available_seats (P2.select r)
           = Hall.seating_capacity (P2.h r)
             - Seats.distinct Sample.bookings2 Sample.booking_seats2
                              (Show.show_id (P2.s r))).
Proof.
  split; [reflexivity|]. intros H.
  specialize (H Sample.double_booked_source (or_introl eq_refl)).
  vm_compute in H. discriminate.
Qed.

(** ** The claims at the sample worlds *)

(** At the populated sample store the Verifier returns false (it holds two
    movies, not six) and the Reporter still runs. *)
Lemma run_all_tests_runs_both_witness :
  fst (verify_setup (extend SampleWorld.populated banner)) = Returned false
  /\ exists w',
      run_all_tests SampleWorld.no_floats SampleWorld.populated
      = (Returned false, w').
Proof.
  split; [reflexivity|].
  destruct (run_all_tests_runs_both SampleWorld.no_floats
              SampleWorld.populated false
              (snd (verify_setup (extend SampleWorld.populated banner))))
    as (r2 & tr2 & Hp & _ & Hr).
  - vm_compute. reflexivity.
  - assert (H2 : fst (test_p2_query SampleWorld.no_floats
                        (extend
                           (snd (verify_setup
                                   (extend SampleWorld.populated banner)))
                           [Printed ""]))
                 = Returned true) by (vm_compute; reflexivity).
    rewrite Hp in H2. simpl in H2. subst r2. eexists. exact Hr.
Defined.

Lemma teardown_idempotent_witness :
  exists w1,
    teardown_database SampleWorld.populated = (Returned tt, w1)
    /\ teardown_database w1
       = (Returned tt, extend w1 [Printed nothing_to_remove_message]).
Proof.
  destruct (teardown_idempotent SampleWorld.populated)
    as (w1 & H1 & _ & _ & _ & H2).
  exists w1. split; assumption.
Defined.

Lemma missing_resource_exits_witness :
  setup_database SampleWorld.no_script SampleWorld.fresh
  = (Exited 1, extend SampleWorld.fresh [Printed schema_not_found_message])
  /\ verify_setup SampleWorld.fresh
     = (Exited 1, extend SampleWorld.fresh [Printed db_not_found_message])
  /\ test_p2_query SampleWorld.no_floats SampleWorld.fresh
     = (Exited 1, extend SampleWorld.fresh [Printed db_not_found_message]).
Proof.
  destruct (missing_resource_exits SampleWorld.no_script SampleWorld.no_floats
              SampleWorld.fresh) as (Hs & Hv & Hp).
  split; [exact (Hs eq_refl)|]. split; [exact (Hv eq_refl)|exact (Hp eq_refl)].
Defined.

Lemma empty_result_reported_witness :
  test_p2_query SampleWorld.no_floats SampleWorld.quiet_day
  = (Returned true,
     extend SampleWorld.quiet_day
       [Connected; Executed Pragma_foreign_keys_on; Printed running_message;
        Executed P2_query; Printed no_shows_message; Printed passed_message;
        Closed]).
Proof.
  apply (empty_result_reported SampleWorld.no_floats SampleWorld.quiet_day
           Sample.db).
  - reflexivity.
  - vm_compute. reflexivity.
Defined.

Lemma reporter_always_true_witness :
  exists tr,
    test_p2_query SampleWorld.no_floats SampleWorld.populated
    = (Returned true, extend SampleWorld.populated tr).
Proof.
  destruct (reporter_always_true SampleWorld.no_floats SampleWorld.populated)
    as (H & _).
  destruct (P2.query (today SampleWorld.populated) Sample.db) as [e|rows] eqn:Hq.
  - vm_compute in Hq. discriminate Hq.
  - exact (H Sample.db rows eq_refl Hq).
Defined.

(** * Further properties of the script *)

(** ** Relations kept along a run *)

Lemma opened_app tr1 tr2 : opened (tr1 ++ tr2) = (opened tr1 + opened tr2)%nat.
Proof. unfold opened. now rewrite filter_app, length_app. Qed.

Lemma closed_app tr1 tr2 : closed (tr1 ++ tr2) = (closed tr1 + closed tr2)%nat.
Proof. unfold closed. now rewrite filter_app, length_app. Qed.

Lemma quiet_app tr1 tr2 : quiet tr1 -> quiet tr2 -> quiet (tr1 ++ tr2).
Proof.
  unfold quiet. rewrite opened_app, closed_app. lia.
Qed.

Lemma balanced_app tr1 tr2 :
  balanced tr1 -> balanced tr2 -> balanced (tr1 ++ tr2).
Proof.
  unfold balanced. rewrite opened_app, closed_app. lia.
Qed.

Lemma quiet_balanced tr : quiet tr -> balanced tr.
Proof. unfold quiet, balanced. lia. Qed.

Lemma quiet_printed (lines : list string) : quiet (map Printed lines).
Proof.
  unfold quiet, opened, closed.
  induction lines as [|l lines IH]; simpl; auto.
Qed.

Section Kept.

Variable R : world -> world -> Prop.
Hypothesis R_refl : forall w, R w w.
Hypothesis R_trans : forall w1 w2 w3, R w1 w2 -> R w2 w3 -> R w1 w3.

Lemma keeps_ret {A : Type} (a : A) : keeps R (ret a).
Proof. intros w. apply R_refl. Qed.

Lemma keeps_sys_exit {A : Type} (code : Z) : keeps R (@sys_exit A code).
Proof. intros w. apply R_refl. Qed.

Lemma keeps_os_path_exists f : keeps R (os_path_exists f).
Proof. intros w. apply R_refl. Qed.

Lemma keeps_bind {A B : Type} (c : M A) (k : A -> M B) :
  keeps R c -> (forall a, keeps R (k a)) -> keeps R (bind c k).
Proof.
  intros Hc Hk w. specialize (Hc w). unfold bind.
  destruct (c w) as [[a|e|n] w1]; simpl in *; try exact Hc.
  eapply R_trans; [exact Hc|apply Hk].
Qed.

Lemma keeps_when (c : bool) (body : M unit) :
  keeps R body -> keeps R (when c body).
Proof. intros Hb. destruct c; [exact Hb|apply keeps_ret]. Qed.

Lemma keeps_try_finally {A : Type} (body : M A) (cleanup : M unit) :
  keeps R body -> keeps R cleanup -> keeps R (try_finally body cleanup).
Proof.
  intros Hb Hc w. specialize (Hb w). unfold try_finally.
  destruct (body w) as [r w1]. specialize (Hc w1).
  destruct (cleanup w1) as [[[]|e|n] w2]; simpl in *; eauto.
Qed.

Lemma keeps_for_each {A S : Type} (l : list A) (body : A -> S -> M S) :
  (forall x acc, keeps R (body x acc)) ->
  forall acc, keeps R (for_each l body acc).
Proof.
  intros Hb. induction l as [|x l IH]; intros acc; simpl.
  - apply keeps_ret.
  - apply keeps_bind; auto.
Qed.

End Kept.

Lemma logged_refl (P : list event -> Prop) :
  P [] -> forall w, logged P w w.
Proof. intros HP w. exists []. now rewrite extend_nil. Qed.

Lemma logged_trans (P : list event -> Prop) :
  (forall tr1 tr2, P tr1 -> P tr2 -> P (tr1 ++ tr2)) ->
  forall w1 w2 w3, logged P w1 w2 -> logged P w2 w3 -> logged P w1 w3.
Proof.
  intros HP w1 w2 w3 (tr1 & -> & H1) (tr2 & -> & H2).
  exists (tr1 ++ tr2). rewrite extend_extend. auto.
Qed.

Lemma traced_refl (P : list event -> Prop) :
  P [] -> forall w, traced P w w.
Proof. intros HP w. exists []. now rewrite app_nil_r. Qed.

Lemma traced_trans (P : list event -> Prop) :
  (forall tr1 tr2, P tr1 -> P tr2 -> P (tr1 ++ tr2)) ->
  forall w1 w2 w3, traced P w1 w2 -> traced P w2 w3 -> traced P w1 w3.
Proof.
  intros HP w1 w2 w3 (tr1 & E1 & H1) (tr2 & E2 & H2).
  exists (tr1 ++ tr2). rewrite E2, E1, app_assoc. auto.
Qed.

Lemma logged_traced (P : list event -> Prop) w w' :
  logged P w w' -> traced P w w'.
Proof. intros (tr & -> & HP). exists tr. auto. Qed.

Lemma quiet_nil : quiet [].
Proof. split; reflexivity. Qed.

Lemma balanced_nil : balanced [].
Proof. reflexivity. Qed.

Lemma keeps_quiet_print line : keeps (logged quiet) (print line).
Proof. intros w. exists [Printed line]. split; [reflexivity|now split]. Qed.

Lemma keeps_quiet_conn_execute {A : Type} st
      (run : string -> database -> exn + A) :
  keeps (logged quiet) (conn_execute st run).
Proof.
  intros w. exists [Executed st]. split; [|now split].
  unfold conn_execute. destruct (db_file w) as [d|]; [|reflexivity].
  now destruct (run (today w) d).
Qed.

Lemma keeps_quiet_check_table item acc :
  keeps (logged quiet) (check_table item acc).
Proof.
  destruct item as [table min_count]. unfold check_table.
  apply keeps_bind.
  - apply logged_trans, quiet_app.
  - apply keeps_quiet_conn_execute.
  - intros count. apply keeps_bind.
    + apply logged_trans, quiet_app.
    + apply keeps_quiet_print.
    + intros _. apply keeps_ret, logged_refl, quiet_nil.
Qed.

(** The part of the Verifier between opening and closing the connection. *)
Lemma keeps_quiet_verify_body :
  keeps (logged quiet)
    (print "Verifying database setup..." ;;
     all_ok <- for_each expected check_table true ;;
     show_count <-
       conn_execute (Select_count "Show") (fun _ d => count_star d "Show") ;;
     let status := if show_count >=? 20 then "OK" else "WARN" in
     print (count_line "Show" show_count 20 status) ;;
     ret all_ok).
Proof.
  assert (Ht := logged_trans quiet quiet_app).
  apply keeps_bind; [exact Ht|apply keeps_quiet_print|intros _].
  apply keeps_bind; [exact Ht| |intros all_ok].
  { apply keeps_for_each; [apply logged_refl, quiet_nil|exact Ht|].
    intros item acc. apply keeps_quiet_check_table. }
  apply keeps_bind; [exact Ht|apply keeps_quiet_conn_execute|intros n].
  apply keeps_bind; [exact Ht|apply keeps_quiet_print|intros _].
  apply keeps_ret, logged_refl, quiet_nil.
Qed.

Lemma try_finally_close {A : Type} (body : M A) w :
  try_finally body conn_close w
  = (fst (body w), extend (snd (body w)) [Closed]).
Proof.
  unfold try_finally, conn_close, emit, log. now destruct (body w).
Qed.

Lemma balanced_connection tr :
  quiet tr ->
  balanced ([Connected; Executed Pragma_foreign_keys_on] ++ tr ++ [Closed]).
Proof.
  intros (Ho & Hc). unfold balanced.
  rewrite !opened_app, !closed_app, Ho, Hc. reflexivity.
Qed.

Lemma verify_setup_logged : keeps (logged balanced) verify_setup.
Proof.
  intros w. destruct (db_file w) as [d|] eqn:Hd.
  2:{ rewrite (verify_setup_absent w Hd). eexists. split; [reflexivity|].
      reflexivity. }
  unfold verify_setup.
  unfold bind at 1. unfold os_path_exists. rewrite Hd. simpl negb.
  unfold when. unfold bind at 1. unfold ret at 1.
  rewrite (bind_returned _ _ _ _ _ (get_connection_open w d Hd)).
  set (w1 := extend w _).
  destruct (keeps_quiet_verify_body w1) as (tr & Hw & Hq).
  match goal with
  | |- context [try_finally ?b conn_close] => set (body := b) in *
  end.
  unfold bind at 1. rewrite try_finally_close, Hw.
  unfold w1. rewrite !extend_extend.
  destruct (fst (body _)) as [all_ok|e|n]; simpl snd.
  - exists (([Connected; Executed Pragma_foreign_keys_on] ++ tr ++ [Closed])
              ++ [Printed (verdict_line all_ok)]).
    split.
    + destruct all_ok; unfold bind, print, emit, ret, log; simpl snd;
        rewrite extend_extend; reflexivity.
    + apply balanced_app; [now apply balanced_connection|reflexivity].
  - eexists. split; [reflexivity|now apply balanced_connection].
  - eexists. split; [reflexivity|now apply balanced_connection].
Qed.

Section ScriptKept.

Variable executescript : string -> database -> database * option exn.
Variable float_repr : spec_float -> string.

Lemma test_p2_query_logged : keeps (logged balanced) (test_p2_query float_repr).
Proof.
  intros w. destruct (db_file w) as [d|] eqn:Hd.
  2:{ rewrite (test_p2_query_absent float_repr w Hd). eexists.
      split; [reflexivity|reflexivity]. }
  destruct (P2.query (today w) d) as [e|rows] eqn:Hq.
  - rewrite (test_p2_query_fails float_repr w d e Hd Hq). eexists.
    split; [reflexivity|reflexivity].
  - rewrite (test_p2_query_rows float_repr w d rows Hd Hq). eexists.
    split; [reflexivity|].
    destruct (quiet_printed (report_lines float_repr P2.columns rows))
      as (Ho & Hc).
    unfold balanced. rewrite !opened_app, !closed_app, Ho, Hc. reflexivity.
Qed.

Lemma keeps_balanced_print line : keeps (logged balanced) (print line).
Proof. intros w. exists [Printed line]. split; reflexivity. Qed.

Lemma run_all_tests_logged : keeps (logged balanced) (run_all_tests float_repr).
Proof.
  assert (Ht := logged_trans balanced balanced_app).
  intros w. rewrite run_all_tests_unfold.
  apply (Ht _ (extend w banner)); [exists banner; split; reflexivity|].
  revert w. intros w.
  apply (keeps_bind _ Ht); [apply verify_setup_logged|intros ok].
  apply (keeps_bind _ Ht); [apply keeps_balanced_print|intros _].
  apply (keeps_bind _ Ht); [apply test_p2_query_logged|intros p2].
  apply (keeps_bind _ Ht); [apply keeps_balanced_print|intros _].
  apply (keeps_bind _ Ht); [apply keeps_balanced_print|intros _].
  apply keeps_ret, logged_refl, balanced_nil.
Qed.

(** What the Schema Loader does once the schema file is there. *)
Lemma setup_database_run w sql :
  schema_file w = Some sql ->
  setup_database executescript w
  = let d0 := match db_file w with
              | Some d => d
              | None => empty_database
              end in
    let before :=
      [Printed ("Setting up database from '" ++ file_name SCHEMA_FILE
                  ++ "'...")%string;
       Read_file SCHEMA_FILE; Connected; Executed Pragma_foreign_keys_on;
       Executed (Script sql)] in
    match snd (executescript sql d0) with
    | None =>
        (Returned tt,
         extend (set_db (Some (fst (executescript sql d0))) w)
           (before ++ [Committed; Printed "Database setup complete."; Closed]))
    | Some e =>
        (Raised e,
         extend (set_db (Some (fst (executescript sql d0))) w)
           (before ++ [Closed]))
    end.
Proof.
  intros Hs.
  unfold setup_database, bind, os_path_exists, when, read_schema,
    get_connection, sqlite3_connect, conn_execute, conn_executescript,
    try_finally, conn_commit, conn_close, print, emit, ret, log.
  rewrite Hs. simpl. rewrite Hs. simpl.
  destruct (executescript sql _) as [d' [e|]]; simpl;
    unfold extend, set_db; simpl; rewrite <- !app_assoc; reflexivity.
Qed.

Lemma setup_database_traced :
  keeps (traced balanced) (setup_database executescript).
Proof.
  intros w. destruct (schema_file w) as [sql|] eqn:Hs.
  - rewrite (setup_database_run w sql Hs). cbv zeta.
    destruct (snd (executescript sql _)); eexists; split;
      try reflexivity; reflexivity.
  - assert (H : setup_database executescript w
                = (Exited 1, extend w [Printed schema_not_found_message])).
    { unfold setup_database, bind, os_path_exists. now rewrite Hs. }
    rewrite H. eexists. split; reflexivity.
Qed.

Lemma teardown_database_run w :
  teardown_database w
  = (Returned tt,
     match db_file w with
     | Some _ =>
         extend (set_db None w) [Removed DB_FILE; Printed removed_message]
     | None => extend w [Printed nothing_to_remove_message]
     end).
Proof.
  unfold teardown_database, bind, os_path_exists, os_remove.
  destruct (db_file w) as [d|] eqn:Hd; simpl; [|reflexivity].
  rewrite Hd. unfold print, emit, log. now rewrite extend_extend.
Qed.

Lemma teardown_database_traced : keeps (traced balanced) teardown_database.
Proof.
  intros w. rewrite teardown_database_run.
  destruct (db_file w); eexists; split; reflexivity.
Qed.

Lemma main_traced a :
  keeps (traced balanced) (main executescript float_repr a).
Proof.
  assert (Ht := traced_trans balanced balanced_app).
  assert (Hr := traced_refl balanced balanced_nil).
  assert (Hl : forall A (c : M A),
             keeps (logged balanced) c -> keeps (traced balanced) c).
  { intros A c Hc w. apply logged_traced, Hc. }
  unfold main.
  apply (keeps_bind _ Ht).
  { apply keeps_when; [exact Hr|]. apply (keeps_bind _ Ht).
    - intros w. exists [Printed_help]. split; reflexivity.
    - intros _. now apply keeps_sys_exit. }
  intros _. apply (keeps_bind _ Ht).
  { apply keeps_when; [exact Hr|apply setup_database_traced]. }
  intros _. apply (keeps_bind _ Ht).
  { apply keeps_when; [exact Hr|]. apply (keeps_bind _ Ht).
    - apply Hl, verify_setup_logged.
    - intros _. now apply keeps_ret. }
  intros _. apply (keeps_bind _ Ht).
  { apply keeps_when; [exact Hr|]. apply (keeps_bind _ Ht).
    - apply Hl, test_p2_query_logged.
    - intros _. now apply keeps_ret. }
  intros _. apply (keeps_bind _ Ht).
  { apply keeps_when; [exact Hr|]. apply (keeps_bind _ Ht).
    - apply Hl, run_all_tests_logged.
    - intros success. now apply keeps_sys_exit. }
  intros _. apply keeps_when; [exact Hr|apply teardown_database_traced].
Qed.

(** X1: the Verifier, the Availability Reporter and the Orchestrator only
    read: on every path -- return, exception or exit -- both files and the
    clock are as they were before, so none of them creates, changes or
    removes the store. *)
Theorem checks_are_read_only (w : world) :
  (db_file (snd (verify_setup w)) = db_file w
   /\ schema_file (snd (verify_setup w)) = schema_file w
   /\ today (snd (verify_setup w)) = today w)
  /\ (db_file (snd (test_p2_query float_repr w)) = db_file w
      /\ schema_file (snd (test_p2_query float_repr w)) = schema_file w
      /\ today (snd (test_p2_query float_repr w)) = today w)
  /\ (db_file (snd (run_all_tests float_repr w)) = db_file w
      /\ schema_file (snd (run_all_tests float_repr w)) = schema_file w
      /\ today (snd (run_all_tests float_repr w)) = today w).
Proof.
  destruct (verify_setup_logged w) as (tr1 & -> & _).
  destruct (test_p2_query_logged w) as (tr2 & -> & _).
  destruct (run_all_tests_logged w) as (tr3 & -> & _).
  repeat split.
Qed.

(** X2: whatever the flags and the world, the events a run of [main] adds
    to the trace close as many connections as they open, on every path:
    no command leaves a connection open. *)
Theorem main_closes_connections (a : args) (w : world) :
  exists tr,
    trace (snd (main executescript float_repr a w)) = trace w ++ tr
    /\ opened tr = closed tr.
Proof. exact (main_traced a w). Qed.

End ScriptKept.

(** ** The Schema Loader *)

Section SetupFacts.

Variable executescript : string -> database -> database * option exn.

(** X3: with the schema file present the Schema Loader runs the whole text
    as one script on the existing store, or on a new empty one when there
    was no store file, and the store file then holds what the engine left.
    If the script succeeds it commits, prints the completion line and
    returns; if the script fails the exception propagates with no commit and
    no completion line.  Either way the connection is closed last. *)
Theorem setup_database_outcomes (w : world) (sql : string) :
  schema_file w = Some sql ->
  let d0 := match db_file w with
            | Some d => d
            | None => empty_database
            end in
  exists tr,
    snd (setup_database executescript w)
    = extend (set_db (Some (fst (executescript sql d0))) w) tr
    /\ In (Executed (Script sql)) tr
    /\ last tr Connected = Closed
    /\ match snd (executescript sql d0) with
       | None =>
           fst (setup_database executescript w) = Returned tt
           /\ In Committed tr
           /\ In (Printed "Database setup complete.") tr
       | Some e =>
           fst (setup_database executescript w) = Raised e
           /\ ~ In Committed tr
           /\ ~ In (Printed "Database setup complete.") tr
       end.
Proof.
  intros Hs d0. rewrite (setup_database_run executescript w sql Hs).
  cbv zeta. fold d0.
  destruct (snd (executescript sql d0)) as [e|]; eexists;
    (split; [reflexivity|]).
  - split; [simpl; tauto|]. split; [reflexivity|].
    split; [reflexivity|].
    split; intros H; simpl in H;
      repeat (destruct H as [H|H]; [discriminate H|]); contradiction.
  - split; [simpl; tauto|]. split; [reflexivity|].
    split; [reflexivity|]. simpl. tauto.
Qed.

(** X4: Teardown followed by the Schema Loader rebuilds the store from
    nothing: whatever the store held before, the script runs on the empty
    store, and the pair returns exactly when the script succeeds on it. *)
Theorem teardown_then_setup_starts_empty (w : world) (sql : string) :
  schema_file w = Some sql ->
  db_file (snd ((teardown_database ;; setup_database executescript) w))
  = Some (fst (executescript sql empty_database))
  /\ (fst ((teardown_database ;; setup_database executescript) w) = Returned tt
      <-> snd (executescript sql empty_database) = None).
Proof.
  intros Hs.
  rewrite (bind_returned _ _ _ _ _ (teardown_database_run w)).
  set (w1 := match db_file w with Some _ => _ | None => _ end).
  assert (Hs1 : schema_file w1 = Some sql) by (unfold w1; now destruct (db_file w)).
  assert (Hd1 : db_file w1 = None).
  { unfold w1. destruct (db_file w) eqn:Hd; [reflexivity|exact Hd]. }
  rewrite (setup_database_run executescript w1 sql Hs1). cbv zeta.
  rewrite Hd1.
  destruct (snd (executescript sql empty_database)) as [e|]; simpl.
  - split; [reflexivity|]. split; discriminate.
  - split; [reflexivity|]. tauto.
Qed.

End SetupFacts.

Lemma setup_database_outcomes_witness :
  exists tr,
    snd (setup_database Sample2.reject Sample2.unloaded)
    = extend (set_db (Some empty_database) Sample2.unloaded) tr
    /\ ~ In Committed tr.
Proof.
  destruct (setup_database_outcomes Sample2.reject Sample2.unloaded _ eq_refl)
    as (tr & Hw & _ & _ & _ & Hc & _).
  exists tr. split; [exact Hw|exact Hc].
Defined.

Lemma teardown_then_setup_starts_empty_witness :
  db_file
    (snd ((teardown_database ;; setup_database Sample2.load_sample)
            SampleWorld.populated))
  = Some Sample.db.
Proof.
  exact (proj1 (teardown_then_setup_starts_empty Sample2.load_sample
                  SampleWorld.populated _ eq_refl)).
Defined.

(** ** The Verifier's output *)

Lemma check_table_events d item acc w count :
  db_file w = Some d -> count_star d (fst item) = inr count ->
  check_table item acc w
  = (Returned (acc && (count >=? snd item)), extend w (check_events d item)).
Proof.
  destruct item as [table min_count]. cbn [fst snd]. intros Hd Hc.
  unfold check_table, check_events. cbn [fst snd]. rewrite Hc.
  erewrite bind_returned by (apply (conn_execute_ok _ _ _ d); eauto).
  unfold bind, print, emit, ret, log. rewrite extend_extend.
  destruct (count >=? min_count); simpl;
    now rewrite ?andb_true_r, ?andb_false_r.
Qed.

Lemma check_table_fails d item acc w e :
  db_file w = Some d -> count_star d (fst item) = inl e ->
  check_table item acc w = (Raised e, extend w (check_events d item)).
Proof.
  destruct item as [table min_count]. cbn [fst snd]. intros Hd Hc.
  unfold check_events. cbn [fst snd]. rewrite Hc.
  exact (check_table_err d table min_count acc w e Hd Hc).
Qed.

(** The loop over the tables before the first failing count query, and at
    it. *)
Lemma for_each_check_table_events d items :
  (forall item, In item items -> exists n, count_star d (fst item) = inr n) ->
  forall acc w,
    db_file w = Some d ->
    for_each items check_table acc w
    = (Returned (acc && forallb (check_ok d) items),
       extend w (flat_map (check_events d) items)).
Proof.
  induction items as [|item items IH]; intros Hall acc w Hd.
  - simpl. unfold ret. now rewrite andb_true_r, extend_nil.
  - destruct (Hall item (or_introl eq_refl)) as (n & Hn).
    cbn [for_each flat_map forallb].
    rewrite (bind_returned _ _ _ _ _ (check_table_events d item acc w n Hd Hn)).
    rewrite IH; [|intros it Hit; apply Hall; now right|exact Hd].
    rewrite extend_extend. unfold check_ok at 2. rewrite Hn.
    now rewrite andb_assoc.
Qed.

Lemma for_each_check_table_stops d pre item post e :
  (forall it, In it pre -> exists n, count_star d (fst it) = inr n) ->
  count_star d (fst item) = inl e ->
  forall acc w,
    db_file w = Some d ->
    for_each (pre ++ item :: post) check_table acc w
    = (Raised e, extend w (flat_map (check_events d) (pre ++ [item]))).
Proof.
  induction pre as [|it pre IH]; intros Hall He acc w Hd.
  - cbn [List.app for_each flat_map]. rewrite app_nil_r.
    now rewrite (bind_raised _ _ _ _ _ (check_table_fails d item acc w e Hd He)).
  - destruct (Hall it (or_introl eq_refl)) as (n & Hn).
    cbn [List.app for_each flat_map].
    rewrite (bind_returned _ _ _ _ _ (check_table_events d it acc w n Hd Hn)).
    rewrite IH; [|intros x Hx; apply Hall; now right|exact He|exact Hd].
    now rewrite extend_extend.
Qed.

Lemma print_run line w : print line w = (Returned tt, extend w [Printed line]).
Proof. reflexivity. Qed.

(** The Verifier in terms of what happens between opening and closing. *)
Lemma verify_setup_present w d :
  db_file w = Some d ->
  verify_setup w
  = let w1 := extend w [Connected; Executed Pragma_foreign_keys_on;
                        Printed "Verifying database setup..."] in
    match
      (all_ok <- for_each expected check_table true ;;
       show_count <-
         conn_execute (Select_count "Show") (fun _ d => count_star d "Show") ;;
       let status := if show_count >=? 20 then "OK" else "WARN" in
       print (count_line "Show" show_count 20 status) ;;
       ret all_ok) w1
    with
    | (Returned all_ok, w2) =>
        (Returned all_ok, extend w2 [Closed; Printed (verdict_line all_ok)])
    | (Raised e, w2) => (Raised e, extend w2 [Closed])
    | (Exited n, w2) => (Exited n, extend w2 [Closed])
    end.
Proof.
  intros Hd. unfold verify_setup.
  unfold bind at 1. unfold os_path_exists. rewrite Hd. simpl negb.
  unfold when. unfold bind at 1. unfold ret at 1.
  rewrite (bind_returned _ _ _ _ _ (get_connection_open w d Hd)).
  unfold bind at 1. rewrite try_finally_close.
  rewrite (bind_returned _ _ _ _ _ (print_run _ _)).
  rewrite extend_extend. cbn [List.app]. cbv zeta.
  match goal with
  | |- context [bind ?c ?k ?w1] => destruct (bind c k w1) as [[all_ok|e|n] w2]
  end; cbn [fst snd]; try reflexivity.
  destruct all_ok; unfold bind, print, emit, ret, log;
    now rewrite extend_extend.
Qed.

(** X5: when the store file is present and the six count queries succeed,
    the Verifier's events are exactly: connect and enable foreign keys; the
    heading; for each checklist table in order (Theater, Movie, Hall, Seat,
    Booking) one count query and one line with the table's actual row count
    and OK or FAIL; the [Show] query and line; close; the verdict line. *)
Theorem verify_setup_events (w : world) (d : database) (show_count : Z) :
  db_file w = Some d ->
  (forall item, In item expected ->
                exists n, count_star d (fst item) = inr n) ->
  count_star d "Show" = inr show_count ->
  verify_setup w
  = (Returned (blocking_ok d),
     extend w
       ([Connected; Executed Pragma_foreign_keys_on;
         Printed "Verifying database setup..."]
          ++ flat_map (check_events d) expected
          ++ [Executed (Select_count "Show"); Printed (show_line show_count);
              Closed; Printed (verdict_line (blocking_ok d))])).
Proof.
  intros Hd Hall Hshow. rewrite (verify_setup_present w d Hd). cbv zeta.
  set (w1 := extend w _).
  rewrite (bind_returned _ _ _ _ _
             (for_each_check_table_events d expected Hall true w1 Hd)).
  erewrite bind_returned
    by (apply (conn_execute_ok _ _ _ d); [exact Hd|exact Hshow]).
  unfold bind, print, emit, ret, log, w1. rewrite !extend_extend.
  cbn [List.app]. rewrite <- ?app_assoc. reflexivity.
Qed.

(** X6: when a count query fails (the table is missing) the Verifier stops
    at the first such table: the lines of the tables before it are printed,
    the failing query is the last statement sent, the connection is closed,
    no verdict is printed and the store's exception propagates.  The same
    holds for the [Show] query after the five checklist tables. *)
Theorem verify_setup_stops_at_failure (w : world) (d : database) :
  db_file w = Some d ->
  (forall pre item post e,
      expected = pre ++ item :: post ->
      (forall it, In it pre -> exists n, count_star d (fst it) = inr n) ->
      count_star d (fst item) = inl e ->
      verify_setup w
      = (Raised e,
         extend w
           ([Connected; Executed Pragma_foreign_keys_on;
             Printed "Verifying database setup..."]
              ++ flat_map (check_events d) pre
              ++ [Executed (Select_count (fst item)); Closed])))
  /\ (forall e,
         (forall it, In it expected ->
                     exists n, count_star d (fst it) = inr n) ->
         count_star d "Show" = inl e ->
         verify_setup w
         = (Raised e,
            extend w
              ([Connected; Executed Pragma_foreign_keys_on;
                Printed "Verifying database setup..."]
                 ++ flat_map (check_events d) expected
                 ++ [Executed (Select_count "Show"); Closed]))).
Proof.
  intros Hd. split.
  - intros pre item post e Hsplit Hpre He.
    rewrite (verify_setup_present w d Hd). cbv zeta. set (w1 := extend w _).
    rewrite Hsplit.
    rewrite (bind_raised _ _ _ _ _
               (for_each_check_table_stops d pre item post e Hpre He true w1 Hd)).
    unfold w1. rewrite !extend_extend, flat_map_app. simpl flat_map.
    unfold check_events at 2. rewrite He, app_nil_r.
    cbn [List.app]. rewrite <- ?app_assoc. reflexivity.
  - intros e Hall Hshow.
    rewrite (verify_setup_present w d Hd). cbv zeta. set (w1 := extend w _).
    rewrite (bind_returned _ _ _ _ _
               (for_each_check_table_events d expected Hall true w1 Hd)).
    erewrite bind_raised
      by (apply (conn_execute_err _ _ _ d); [exact Hd|exact Hshow]).
    unfold w1. rewrite !extend_extend.
    cbn [List.app]. rewrite <- ?app_assoc. reflexivity.
Qed.

Lemma verify_setup_events_witness :
  printed (trace (snd (verify_setup SampleWorld.populated)))
  = ["Verifying database setup...";
     "  Theater: 2 rows (expected >= 2) [OK]";
     "  Movie: 2 rows (expected >= 6) [FAIL]";
     "  Hall: 2 rows (expected >= 5) [FAIL]";
     "  Seat: 3 rows (expected >= 9) [FAIL]";
     "  Booking: 4 rows (expected >= 3) [OK]";
     "  Show: 7 rows (expected >= 20) [WARN]";
     "Verification failed. Some tables have fewer rows than expected."].
Proof.
  rewrite (verify_setup_events SampleWorld.populated Sample.db 7).
  - reflexivity.
  - reflexivity.
  - unfold expected. simpl.
    intros item [<-|[<-|[<-|[<-|[<-|[]]]]]]; eexists; reflexivity.
  - reflexivity.
Defined.

Lemma verify_setup_stops_at_failure_witness :
  verify_setup (mkworld None (Some Sample2.no_hall) "2026-01-15" [])
  = (Raised (no_such_table "Hall"),
     mkworld None (Some Sample2.no_hall) "2026-01-15"
       [Connected; Executed Pragma_foreign_keys_on;
        Printed "Verifying database setup...";
        Executed (Select_count "Theater");
        Printed "  Theater: 2 rows (expected >= 2) [OK]";
        Executed (Select_count "Movie");
        Printed "  Movie: 2 rows (expected >= 6) [FAIL]";
        Executed (Select_count "Hall"); Closed]).
Proof.
  refine (proj1 (verify_setup_stops_at_failure
                   (mkworld None (Some Sample2.no_hall) "2026-01-15" [])
                   Sample2.no_hall eq_refl)
                [("Theater", 2); ("Movie", 6)] ("Hall", 5)
                [("Seat", 9); ("Booking", 3)] _ eq_refl _ eq_refl).
  simpl. intros it [<-|[<-|[]]]; eexists; reflexivity.
Defined.

(** ** The Reporter's table *)

Lemma length_ljust_fits s width :
  (String.length s <= width)%nat -> String.length (Py.ljust s width) = width.
Proof. intros H. unfold Py.ljust. rewrite length_append, length_times. lia. Qed.

Lemma list_max_ge (l : list nat) x : In x l -> (x <= list_max l)%nat.
Proof.
  intros Hin.
  pose proof (proj1 (list_max_le l (list_max l)) (Nat.le_refl _)) as Hall.
  rewrite Forall_forall in Hall. now apply Hall.
Qed.

Lemma line_length (c0 c1 c2 c3 c4 c5 c6 c7 : string)
      (w0 w1 w2 w3 w4 w5 w6 w7 : nat) :
  String.length c0 = w0 -> String.length c1 = w1 -> String.length c2 = w2 ->
  String.length c3 = w3 -> String.length c4 = w4 -> String.length c5 = w5 ->
  String.length c6 = w6 -> String.length c7 = w7 ->
  String.length ("  " ++ Py.join "  " [c0; c1; c2; c3; c4; c5; c6; c7])
  = (16 + list_sum [w0; w1; w2; w3; w4; w5; w6; w7])%nat.
Proof.
  intros. subst. unfold Py.join. cbn [String.concat list_sum fold_right].
  rewrite !length_append. cbn [String.length]. lia.
Qed.

Section TableFacts.

Variable float_repr : spec_float -> string.

Lemma cell_fits rows row i a :
  In row rows ->
  (String.length (str float_repr (nth i (cells row) VNull))
   <= Nat.max a
        (Py.max_default0
           (map (fun row => String.length
                              (str float_repr (nth i (cells row) VNull)))
                rows)))%nat.
Proof.
  intros Hin. eapply Nat.le_trans; [|apply Nat.le_max_r].
  apply list_max_ge.
  now apply (in_map (fun row => String.length
                                  (str float_repr (nth i (cells row) VNull)))).
Qed.

(** X7: the table is aligned: the header, the separator and the line of
    every fetched row have the same length, two characters of margin and
    of gap around eight columns each as wide as its widest entry. *)
Theorem table_lines_aligned (rows : list P2.result_row) (line : string) :
  In line
     (header P2.columns (col_widths float_repr P2.columns rows)
        :: separator (col_widths float_repr P2.columns rows)
        :: map (row_line float_repr (col_widths float_repr P2.columns rows))
               rows) ->
  String.length line
  = (16 + list_sum (col_widths float_repr P2.columns rows))%nat.
Proof.
  unfold col_widths, Py.enumerate, P2.columns.
  cbn [List.length seq combine map].
  intros [<-|[<-|Hin]].
  - unfold header, Py.enumerate. cbn [List.length seq combine map nth].
    apply line_length; apply length_ljust_fits, Nat.le_max_l.
  - unfold separator. cbn [map].
    apply line_length; apply length_times.
  - apply in_map_iff in Hin as (row & <- & Hin).
    unfold row_line, Py.enumerate.
    cbn [cells List.length seq combine map nth].
    apply line_length; apply length_ljust_fits.
    + exact (cell_fits rows row 0 _ Hin).
    + exact (cell_fits rows row 1 _ Hin).
    + exact (cell_fits rows row 2 _ Hin).
    + exact (cell_fits rows row 3 _ Hin).
    + exact (cell_fits rows row 4 _ Hin).
    + exact (cell_fits rows row 5 _ Hin).
    + exact (cell_fits rows row 6 _ Hin).
    + exact (cell_fits rows row 7 _ Hin).
Qed.

End TableFacts.

Lemma table_lines_aligned_witness :
  String.length
    (row_line SampleWorld.no_floats
       (col_widths SampleWorld.no_floats P2.columns Sample2.report)
       (P2.select Sample.booked_source))
  = (16 + list_sum (col_widths SampleWorld.no_floats P2.columns
                      Sample2.report))%nat.
Proof.
  apply table_lines_aligned. right. right.
  apply in_map. vm_compute. auto.
Defined.

(** ** The shape of the P2 result *)

Module JoinFacts.
Import Sql SqlFacts.

(** A key that occurs once selects at most one row. *)
Lemma unique_key_match {B : Type} (key : B -> Z) (x : Z) (r : list B) :
  NoDup (map key r) ->
  (List.length (filter (fun b => (x =? key b)%Z) r) <= 1)%nat.
Proof.
  induction r as [|b r IH]; simpl; intros Hnd; [lia|].
  inversion Hnd as [|k ks Hnotin Hnd']; subst.
  destruct (Z.eqb_spec x (key b)) as [Hx|Hx]; [|auto].
  assert (Hnone : filter (fun b0 => x =? key b0) r = []).
  { apply filter_nil_iff. intros b' Hb'. apply Z.eqb_neq. intros Hx'.
    apply Hnotin. rewrite <- Hx, Hx'. now apply in_map. }
  rewrite Hnone. simpl. lia.
Qed.

Lemma inner_join_length {A B : Type} (on : A -> B -> bool) l r :
  (forall a, (List.length (filter (on a) r) <= 1)%nat) ->
  (List.length (inner_join on l r) <= List.length l)%nat.
Proof.
  intros H. unfold inner_join. induction l as [|a l IH]; simpl; [lia|].
  rewrite length_app, length_map. specialize (H a). lia.
Qed.

Lemma left_join_fst {A B : Type} (on : A -> B -> bool) l r :
  (forall a, (List.length (filter (on a) r) <= 1)%nat) ->
  map fst (left_join on l r) = l.
Proof.
  intros H. unfold left_join. induction l as [|a l IH]; [reflexivity|].
  cbn [flat_map]. rewrite map_app, IH. specialize (H a).
  destruct (filter (on a) r) as [|b [|b' ms]]; simpl in *;
    [reflexivity|reflexivity|lia].
Qed.

Lemma group_by_keys {A R : Type} (key : A -> Z) (agg : list A -> R) l :
  map fst (group_by key agg l) = nodup Z.eq_dec (map key l).
Proof.
  unfold group_by. rewrite map_map. simpl. apply map_id.
Qed.

Lemma confirmed_seats_filter bookings booking_seats :
  P2.confirmed_seats
    (filter (fun b => (Booking.booking_status b =? "Confirmed")%string)
            bookings)
    booking_seats
  = P2.confirmed_seats bookings booking_seats.
Proof.
  unfold P2.confirmed_seats, inner_join.
  induction bookings as [|b l IH]; [reflexivity|].
  cbn [filter flat_map]. rewrite filter_app, <- IH.
  rewrite P2Facts.filter_map_pair. cbn [fst]. rewrite P2Facts.filter_const.
  destruct (Booking.booking_status b =? "Confirmed")%string eqn:Hb.
  - cbn [flat_map]. rewrite filter_app, P2Facts.filter_map_pair. cbn [fst].
    now rewrite P2Facts.filter_const, Hb.
  - reflexivity.
Qed.

Lemma flat_map_flat_map {A B C : Type} (g : A -> list B) (f : B -> list C) l :
  flat_map f (flat_map g l) = flat_map (fun a => flat_map f (g a)) l.
Proof.
  induction l as [|a l IH]; [reflexivity|].
  cbn [flat_map]. now rewrite flat_map_app, IH.
Qed.

Lemma thin_refl {A : Type} (l : list A) : thin (fun a => a) l l.
Proof.
  exists (fun a => [a]). split.
  - induction l as [|a l IH]; [reflexivity|]. cbn [flat_map List.app].
    now rewrite <- IH.
  - intros a. split; [simpl; lia|]. now intros x [<-|[]].
Qed.

(** Replacing each element by at most one element keeps a list thin. *)
Lemma thin_flat_map {A X Y : Type} (p : X -> A) (q : Y -> X) (f : X -> list Y)
      l L :
  thin p l L ->
  (forall x, (List.length (f x) <= 1)%nat /\ forall y, In y (f x) -> q y = x) ->
  thin (fun y => p (q y)) l (flat_map f L).
Proof.
  intros (g & -> & Hg) Hf. exists (fun a => flat_map f (g a)).
  split; [apply flat_map_flat_map|]. intros a.
  destruct (Hg a) as (Hlen & Hp).
  destruct (g a) as [|x [|x' rest]]; simpl in Hlen; [| |lia].
  - split; [simpl; lia|]. now intros y [].
  - cbn [flat_map]. rewrite app_nil_r. destruct (Hf x) as (Hflen & Hq).
    split; [exact Hflen|]. intros y Hy. rewrite (Hq y Hy).
    apply Hp. now left.
Qed.

Lemma thin_inner_join {A X B : Type} (p : X -> A) (on : X -> B -> bool) l L r :
  thin p l L ->
  (forall x, (List.length (filter (on x) r) <= 1)%nat) ->
  thin (fun y => p (fst y)) l (inner_join on L r).
Proof.
  intros HL Hon. unfold inner_join. apply thin_flat_map; [exact HL|].
  intros x. split; [now rewrite length_map|].
  intros y Hy. apply in_map_iff in Hy as (b & <- & _). reflexivity.
Qed.

Lemma thin_left_join {A X B : Type} (p : X -> A) (on : X -> B -> bool) l L r :
  thin p l L ->
  (forall x, (List.length (filter (on x) r) <= 1)%nat) ->
  thin (fun y => p (fst y)) l (left_join on L r).
Proof.
  intros HL Hon. unfold left_join. apply thin_flat_map; [exact HL|].
  intros x. specialize (Hon x).
  destruct (filter (on x) r) as [|b [|b' ms]]; simpl in Hon; [| |lia].
  - split; [simpl; lia|]. now intros y [<-|[]].
  - split; [simpl; lia|]. now intros y [<-|[]].
Qed.

Lemma thin_filter {A X : Type} (p : X -> A) (f : X -> bool) l L :
  thin p l L -> thin p l (filter f L).
Proof.
  intros HL.
  assert (Hf : filter f L = flat_map (fun x => if f x then [x] else []) L).
  { clear HL. induction L as [|x L IH]; [reflexivity|].
    cbn [filter flat_map]. rewrite IH. now destruct (f x). }
  rewrite Hf. apply (thin_flat_map p (fun x => x)); [exact HL|].
  intros x. destruct (f x).
  - split; [simpl; lia|]. now intros y [<-|[]].
  - split; [simpl; lia|]. now intros y [].
Qed.

(** The elements a thin list stands for are a selection of [l], in order. *)
Lemma thin_selects {A X : Type} (p : X -> A) l L :
  thin p l L -> exists keep, map p L = filter keep l.
Proof.
  intros (g & -> & Hg).
  exists (fun a => match g a with [] => false | _ :: _ => true end).
  induction l as [|a l IH]; [reflexivity|].
  cbn [flat_map filter]. rewrite map_app, IH.
  destruct (Hg a) as (Hlen & Hp).
  destruct (g a) as [|x [|x' rest]] eqn:Ha; simpl in Hlen; [reflexivity| |lia].
  simpl. f_equal. apply Hp. now left.
Qed.

Lemma NoDup_map_filter {A B : Type} (f : A -> B) (keep : A -> bool) l :
  NoDup (map f l) -> NoDup (map f (filter keep l)).
Proof.
  induction l as [|a l IH]; simpl; intros Hnd; [constructor|].
  inversion Hnd as [|b bs Hnotin Hnd']; subst.
  destruct (keep a); [|auto]. simpl. constructor; [|auto].
  intros Hin. apply Hnotin. apply in_map_iff in Hin as (x & Hx & Hin).
  apply filter_In in Hin as (Hin & _). rewrite <- Hx. now apply in_map.
Qed.

(** With unique keys in [Movie], [Hall] and [Theater], the selected rows
    hold at most one row for each row of [Show]. *)
Lemma sources_thin today shows movies halls theaters bookings booking_seats :
  NoDup (map Movie.movie_id movies) ->
  NoDup (map Hall.hall_id halls) ->
  NoDup (map Theater.theater_id theaters) ->
  exists keep,
    Permutation
      (map P2.s (P2.selected_sources today shows movies halls theaters
                                     bookings booking_seats))
      (filter keep shows).
Proof.
  intros Hm Hh Ht.
  assert (Hthin : thin P2.s shows
                    (filter (P2.where_clause today)
                       (P2.from_clause shows movies halls theaters bookings
                                       booking_seats))).
  { apply thin_filter. unfold P2.from_clause, P2.join_chain.
    apply (thin_left_join (fun y => fst (fst (fst y)))).
    - apply (thin_inner_join (fun y => fst (fst y))).
      + apply (thin_inner_join (fun y => fst y)).
        * apply (thin_inner_join (fun y => y)); [apply thin_refl|].
          intros x. apply (unique_key_match Movie.movie_id _ _ Hm).
        * intros x. apply (unique_key_match Hall.hall_id _ _ Hh).
      + intros x. apply (unique_key_match Theater.theater_id _ _ Ht).
    - intros x. apply (unique_key_match fst). unfold P2.booked_seats.
      rewrite group_by_keys. apply NoDup_nodup. }
  destruct (thin_selects _ _ _ Hthin) as (keep & Hkeep).
  exists keep. rewrite <- Hkeep. unfold P2.selected_sources.
  apply Permutation_map, order_by_perm.
Qed.

(** The aggregate has one group per show, so the left join gives each
    chain row exactly once. *)
Lemma from_clause_chain shows movies halls theaters bookings booking_seats :
  map fst (P2.from_clause shows movies halls theaters bookings booking_seats)
  = P2.join_chain shows movies halls theaters.
Proof.
  unfold P2.from_clause. apply left_join_fst. intros a.
  apply (unique_key_match fst). unfold P2.booked_seats.
  rewrite group_by_keys. apply NoDup_nodup.
Qed.

End JoinFacts.

Section ResultShape.
Import Sql SqlFacts P2Facts JoinFacts.

Variable today : string.
Variables (shows : list Show.row) (movies : list Movie.row)
          (halls : list Hall.row) (theaters : list Theater.row)
          (bookings : list Booking.row)
          (booking_seats : list Booking_Seat.row).

(** X8: the left join onto the booked-seats aggregate neither drops nor
    duplicates a row of the Show-Movie-Hall-Theater chain: the aggregate has
    one group per show, so each chain row comes out exactly once, in
    order. *)
Theorem left_join_keeps_chain :
  map fst (P2.from_clause shows movies halls theaters bookings booking_seats)
  = P2.join_chain shows movies halls theaters.
Proof. apply from_clause_chain. Qed.

(** X9: when [movie_id], [hall_id] and [theater_id] are keys of their
    tables, each row of [Show] gives at most one row of the result: the
    query returns one row for each selected tuple, and the shows of the
    selected tuples are, up to the order, a selection of the rows of the
    [Show] table, none taken twice.  With [show_id] a key too, no two rows
    of the result belong to the same [show_id]. *)
Theorem at_most_one_row_per_show (seats : option (list Seat.row)) :
  NoDup (map Movie.movie_id movies) ->
  NoDup (map Hall.hall_id halls) ->
  NoDup (map Theater.theater_id theaters) ->
  exists sources keep,
    P2.query today
      (mkdb (Some theaters) (Some movies) (Some halls) (Some shows) seats
            (Some bookings) (Some booking_seats))
    = inr (map P2.select sources)
    /\ Permutation (map P2.s sources) (filter keep shows)
    /\ (NoDup (map Show.show_id shows) ->
        NoDup (map (fun r => Show.show_id (P2.s r)) sources)).
Proof.
  intros Hm Hh Ht.
  destruct (sources_thin today shows movies halls theaters bookings
              booking_seats Hm Hh Ht) as (keep & Hperm).
  eexists. exists keep. split; [apply query_rows|]. split; [exact Hperm|].
  intros Hs. rewrite <- (map_map P2.s Show.show_id).
  eapply Permutation_NoDup;
    [symmetry; apply Permutation_map; exact Hperm|].
  now apply NoDup_map_filter.
Qed.

(** X10: only Confirmed bookings reach the report: two [Booking] tables
    with the same Confirmed rows, in the same order, give the same result,
    whatever bookings of another status are added, removed or changed. *)
Theorem only_confirmed_bookings_matter (bookings' : list Booking.row) :
  filter (fun b => (Booking.booking_status b =? "Confirmed")%string) bookings
  = filter (fun b => (Booking.booking_status b =? "Confirmed")%string)
           bookings' ->
  P2.rows today shows movies halls theaters bookings booking_seats
  = P2.rows today shows movies halls theaters bookings' booking_seats.
Proof.
  intros H.
  unfold P2.rows, P2.selected_sources, P2.from_clause, P2.booked_seats.
  now rewrite <- (confirmed_seats_filter bookings),
    <- (confirmed_seats_filter bookings'), H.
Qed.

(** X11: the report does not clamp: a row's [available_seats] is negative
    exactly when the show's Confirmed bookings hold more seat attachments
    than the hall has seats. *)
Theorem overbooking_shows_negative (r : P2.source_row) :
  In r (P2.selected_sources today shows movies halls theaters bookings
                            booking_seats) ->
  (P2.available_seats (P2.select r) < 0
   <-> Hall.seating_capacity (P2.h r)
       < Seats.attachments bookings booking_seats (Show.show_id (P2.s r))).
Proof.
  intros Hin. apply in_sources in Hin as (Hin & _).
  apply booked_count_attachments in Hin. simpl. rewrite Hin. lia.
Qed.

(** X12: when no show is dated today, or no theater carries the fixed
    name, the result is empty. *)
Theorem no_show_today_no_rows :
  (forall sh, In sh shows -> Show.show_date sh <> today)
  \/ (forall th, In th theaters -> Theater.theater_name th <> "PVR: Nexus") ->
  P2.rows today shows movies halls theaters bookings booking_seats = [].
Proof.
  intros Hnone. unfold P2.rows.
  destruct (P2.selected_sources _ _ _ _ _ _ _) as [|r l] eqn:Hsrc;
    [reflexivity|exfalso].
  assert (Hin : In r (P2.selected_sources today shows movies halls theaters
                        bookings booking_seats))
    by (rewrite Hsrc; now left).
  apply in_sources in Hin as (Hin & Hw).
  apply where_clause_true in Hw as (Hname & Hdate & _).
  apply (in_map fst) in Hin. rewrite from_clause_chain in Hin.
  destruct r as [[[[sh mv] hl] th] booked].
  apply in_join_chain in Hin as (Hsh & _ & _ & Hth & _).
  destruct Hnone as [Hnone|Hnone].
  - exact (Hnone sh Hsh Hdate).
  - exact (Hnone th Hth Hname).
Qed.

End ResultShape.

Lemma at_most_one_row_per_show_witness :
  exists sources,
    P2.query "2026-01-15" Sample.db = inr (map P2.select sources)
    /\ NoDup (map (fun r => Show.show_id (P2.s r)) sources).
Proof.
  destruct (at_most_one_row_per_show "2026-01-15" Sample.shows Sample.movies
              Sample.halls Sample.theaters Sample.bookings
              Sample.booking_seats (Some Sample.seats))
    as (sources & keep & Hq & _ & Hnd).
  - vm_compute. repeat (constructor; [simpl; intuition discriminate|]).
    constructor.
  - vm_compute. repeat (constructor; [simpl; intuition discriminate|]).
    constructor.
  - vm_compute. repeat (constructor; [simpl; intuition discriminate|]).
    constructor.
  - exists sources. split; [exact Hq|]. apply Hnd.
    vm_compute. repeat (constructor; [simpl; intuition discriminate|]).
    constructor.
Defined.

Lemma only_confirmed_bookings_matter_witness :
  Sample2.report
  = P2.rows "2026-01-15" Sample.shows Sample.movies Sample.halls
            Sample.theaters
            (Booking.mk 9 1 "Pending" :: Sample.bookings)
            Sample.booking_seats.
Proof.
  apply only_confirmed_bookings_matter. reflexivity.
Defined.

Lemma overbooking_shows_negative_witness :
  In Sample.booked_source
     (P2.selected_sources "2026-01-15" Sample.shows Sample.movies Sample.halls
        Sample.theaters Sample.bookings Sample.booking_seats)
  /\ ~ P2.available_seats (P2.select Sample.booked_source) < 0.
Proof.
  assert (H : In Sample.booked_source
                 (P2.selected_sources "2026-01-15" Sample.shows Sample.movies
                    Sample.halls Sample.theaters Sample.bookings
                    Sample.booking_seats))
    by (vm_compute; auto).
  split; [exact H|]. intros Hneg.
  apply (overbooking_shows_negative _ _ _ _ _ _ _ _ H) in Hneg.
  vm_compute in Hneg. discriminate Hneg.
Defined.

Lemma no_show_today_no_rows_witness :
  P2.rows "2027-03-01" Sample.shows Sample.movies Sample.halls Sample.theaters
          Sample.bookings Sample.booking_seats
  = [].
Proof.
  apply no_show_today_no_rows. left. intros sh Hin. simpl in Hin.
  repeat (destruct Hin as [<-|Hin]; [discriminate|]). contradiction.
Defined.

(** ** The command line *)

(** An action that never exits the process. *)
Lemma bind_no_exit {A B : Type} (c : M A) (k : A -> M B) :
  (forall w n w', c w <> (Exited n, w')) ->
  (forall a w n w', k a w <> (Exited n, w')) ->
  forall w n w', bind c k w <> (Exited n, w').
Proof.
  intros Hc Hk w n w'. unfold bind.
  destruct (c w) as [[a|e|m] w1] eqn:Hcw.
  - apply Hk.
  - discriminate.
  - exfalso. exact (Hc _ _ _ Hcw).
Qed.

Lemma conn_execute_no_exit {A : Type} st (run : string -> database -> exn + A)
      w n w' :
  conn_execute st run w <> (Exited n, w').
Proof.
  unfold conn_execute. destruct (db_file w) as [d|]; [|discriminate].
  destruct (run (today w) d); discriminate.
Qed.

Lemma for_each_check_table_no_exit items :
  forall acc w n w', for_each items check_table acc w <> (Exited n, w').
Proof.
  induction items as [|[table min_count] items IH]; intros acc; simpl.
  - discriminate.
  - apply bind_no_exit; [|intros a; apply IH].
    unfold check_table. apply bind_no_exit.
    + apply conn_execute_no_exit.
    + intros count. apply bind_no_exit; discriminate.
Qed.

(** The Verifier exits only with status 1. *)
Lemma verify_setup_exit_status w n w' :
  verify_setup w = (Exited n, w') -> n = 1.
Proof.
  destruct (db_file w) as [d|] eqn:Hd.
  - rewrite (verify_setup_present w d Hd). cbv zeta.
    match goal with
    | |- context [bind ?c ?k ?w1] =>
        pose proof (bind_no_exit c k) as Hne;
        destruct (bind c k w1) as [[all_ok|e|m] w2] eqn:Hb
    end; try discriminate.
    exfalso. refine (Hne _ _ _ _ _ Hb).
    + apply for_each_check_table_no_exit.
    + intros all_ok. apply bind_no_exit.
      * apply conn_execute_no_exit.
      * intros count. apply bind_no_exit; discriminate.
  - rewrite (verify_setup_absent w Hd). congruence.
Qed.

Section CommandLine.

Variable executescript : string -> database -> database * option exn.
Variable float_repr : spec_float -> string.

Lemma test_p2_query_exit_status w n w' :
  test_p2_query float_repr w = (Exited n, w') -> n = 1.
Proof.
  destruct (db_file w) as [d|] eqn:Hd.
  - destruct (P2.query (today w) d) as [e|rows] eqn:Hq.
    + rewrite (test_p2_query_fails float_repr w d e Hd Hq). discriminate.
    + rewrite (test_p2_query_rows float_repr w d rows Hd Hq). discriminate.
  - rewrite (test_p2_query_absent float_repr w Hd). congruence.
Qed.

(** The [--test] branch of [main]. *)
Lemma test_branch_run w :
  (success <- run_all_tests float_repr ;;
   sys_exit (if success : bool then 0 else 1)) w
  = match run_all_tests float_repr w with
    | (Returned b, w') => (@Exited unit (if b then 0 else 1), w')
    | (Raised e, w') => (Raised e, w')
    | (Exited n, w') => (Exited n, w')
    end.
Proof.
  unfold bind. now destruct (run_all_tests float_repr w) as [[b|e|n] w'].
Qed.

Lemma test_branch_never_returns w u w' :
  (success <- run_all_tests float_repr ;;
   sys_exit (if success : bool then 0 else 1)) w
  <> (@Returned unit u, w').
Proof.
  rewrite test_branch_run.
  destruct (run_all_tests float_repr w) as [[b|e|n] w1]; discriminate.
Qed.

Lemma bind_never_returns {A B : Type} (c : M A) (k1 k2 : A -> M B) w :
  (forall a w', c w <> (Returned a, w')) -> bind c k1 w = bind c k2 w.
Proof.
  intros H. unfold bind. destruct (c w) as [[a|e|n] w1] eqn:Hc;
    [exfalso; exact (H _ _ eq_refl)|reflexivity|reflexivity].
Qed.

(** X13: with [--test] the process always ends inside the test branch, by
    exit or by an exception: [main] never returns normally and [--teardown]
    given together with [--test] is never acted on. *)
Theorem test_flag_skips_teardown (a : args) (w : world) :
  test a = true ->
  main executescript float_repr a w
  = main executescript float_repr
         (mkargs (setup a) (verify a) (test_p2 a) true false) w
  /\ forall u w', main executescript float_repr a w <> (Returned u, w').
Proof.
  destruct a as [fs fv fp ft fd]. simpl. intros ->.
  assert (Hany : forall fd', any_flag (mkargs fs fv fp true fd') = true).
  { intros fd'. unfold any_flag. simpl. now rewrite !orb_true_r. }
  unfold main. rewrite !Hany. simpl. split.
  - apply bind_ext. intros _ w0. apply bind_ext. intros _ w1.
    apply bind_ext. intros _ w2. apply bind_ext. intros _ w3.
    apply bind_never_returns. intros [] w4. apply test_branch_never_returns.
  - intros u w' H.
    apply bind_inv in H as (? & w0 & _ & H).
    apply bind_inv in H as (? & w1 & _ & H).
    apply bind_inv in H as (? & w2 & _ & H).
    apply bind_inv in H as (? & w3 & _ & H).
    apply bind_inv in H as (u' & w4 & H & _).
    exact (test_branch_never_returns _ _ _ H).
Qed.

(** X14: with [--test] alone (with or without [--teardown]) the process
    ends with status 0 exactly when the Verifier returned true and the
    Reporter then returned; a failed check, a missing store file or a
    failing query never gives status 0. *)
Theorem test_flag_exit_status (fd : bool) (w : world) :
  fst (main executescript float_repr (mkargs false false false true fd) w)
  = Exited 0
  <-> exists w1 w2,
      verify_setup (extend w banner) = (Returned true, w1)
      /\ test_p2_query float_repr (extend w1 [Printed ""])
         = (Returned true, w2).
Proof.
  assert (Hmain : main executescript float_repr
                       (mkargs false false false true fd) w
                  = bind (success <- run_all_tests float_repr ;;
                          sys_exit (if success : bool then 0 else 1))
                         (fun _ => when fd teardown_database) w)
    by reflexivity.
  rewrite Hmain. unfold bind at 1. rewrite test_branch_run.
  rewrite run_all_tests_unfold. unfold bind at 1.
  destruct (verify_setup (extend w banner)) as [[ok|e|n] w1] eqn:Hv.
  - rewrite (bind_returned _ _ _ _ _ (print_run "" w1)). unfold bind at 1.
    destruct (test_p2_query float_repr (extend w1 [Printed ""]))
      as [[p2|e|n] w2] eqn:Hp.
    + pose proof (test_p2_query_returns_true float_repr _ _ _ Hp) as Hp2.
      subst p2. unfold bind, print, emit, ret. simpl.
      destruct ok; simpl; split.
      * intros _. eauto.
      * reflexivity.
      * discriminate.
      * intros (w1' & w2' & H1 & _). discriminate H1.
    + simpl. split; [discriminate|].
      intros (w1' & w2' & H1 & H2). inversion H1; subst.
      rewrite Hp in H2. discriminate.
    + pose proof (test_p2_query_exit_status _ _ _ Hp) as Hn. subst n. simpl.
      split; [discriminate|].
      intros (w1' & w2' & H1 & H2). inversion H1; subst.
      rewrite Hp in H2. discriminate.
  - simpl. split; [discriminate|]. intros (w1' & w2' & H1 & _). discriminate.
  - pose proof (verify_setup_exit_status _ _ _ Hv) as Hn. subst n. simpl.
    split; [discriminate|]. intros (w1' & w2' & H1 & _). discriminate.
Qed.

(** X17: the checklist does not cover [Booking_Seat]: on a store where the
    six count queries succeed but that table is missing, the Verifier
    returns its verdict as usual and the Orchestrator then ends with the
    Reporter's "no such table" exception instead of a summary. *)
Theorem unchecked_table_fails_reporter (w : world) (d : database) (n : Z) :
  db_file w = Some d ->
  (forall item, In item expected ->
                exists n, count_star d (fst item) = inr n) ->
  count_star d "Show" = inr n ->
  Booking_Seat_tbl d = None ->
  (exists tr,
      verify_setup (extend w banner)
      = (Returned (blocking_ok d), extend (extend w banner) tr))
  /\ exists w',
      run_all_tests float_repr w
      = (Raised (no_such_table "Booking_Seat"), w').
Proof.
  intros Hd Hall Hshow Hbs.
  assert (Hdb : db_file (extend w banner) = Some d) by exact Hd.
  destruct (verify_setup_returns _ d n Hdb Hall Hshow) as (checks & Hrun).
  split; [eexists; exact Hrun|].
  assert (Hq : forall today, P2.query today d = inl (no_such_table "Booking_Seat")).
  { intros today0. unfold P2.query. rewrite Hbs.
    destruct (Hall ("Theater", 2)) as (n1 & H1); [simpl; auto|].
    destruct (Hall ("Movie", 6)) as (n2 & H2); [simpl; auto|].
    destruct (Hall ("Hall", 5)) as (n3 & H3); [simpl; auto|].
    destruct (Hall ("Booking", 3)) as (n4 & H4); [simpl; auto 6|].
    unfold count_star in H1, H2, H3, H4, Hshow. simpl in H1, H2, H3, H4, Hshow.
    destruct (Show_tbl d); [|discriminate].
    destruct (Movie_tbl d); [|discriminate].
    destruct (Hall_tbl d); [|discriminate].
    destruct (Theater_tbl d); [|discriminate].
    destruct (Booking_tbl d); [|discriminate].
    reflexivity. }
  rewrite run_all_tests_unfold, (bind_returned _ _ _ _ _ Hrun).
  rewrite (bind_returned _ _ _ _ _ (print_run "" _)).
  eexists. apply bind_raised.
  apply (test_p2_query_fails float_repr _ d); [exact Hd|apply Hq].
Qed.

End CommandLine.

Lemma run_all_tests_absent_witness :
  run_all_tests SampleWorld.no_floats SampleWorld.fresh
  = (Exited 1,
     extend SampleWorld.fresh (banner ++ [Printed db_not_found_message])).
Proof.
  exact (run_all_tests_absent SampleWorld.no_floats SampleWorld.fresh eq_refl).
Defined.

Lemma main_missing_resource_witness :
  main SampleWorld.no_script SampleWorld.no_floats
       (mkargs true true false false true) SampleWorld.fresh
  = (Exited 1, extend SampleWorld.fresh [Printed schema_not_found_message]).
Proof.
  refine (proj1 (main_missing_resource SampleWorld.no_script
                   SampleWorld.no_floats (mkargs true true false false true)
                   SampleWorld.fresh eq_refl) _).
  split; reflexivity.
Defined.

Lemma test_flag_skips_teardown_witness :
  main Sample2.load_sample SampleWorld.no_floats Sample2.test_and_teardown
       SampleWorld.populated
  = main Sample2.load_sample SampleWorld.no_floats Sample2.only_test
         SampleWorld.populated.
Proof.
  exact (proj1 (test_flag_skips_teardown Sample2.load_sample
                  SampleWorld.no_floats Sample2.test_and_teardown
                  SampleWorld.populated eq_refl)).
Defined.

Lemma unchecked_table_fails_reporter_witness :
  exists w',
    run_all_tests SampleWorld.no_floats
      (mkworld None (Some Sample2.no_booking_seat) "2026-01-15" [])
    = (Raised (no_such_table "Booking_Seat"), w').
Proof.
  refine (proj2 (unchecked_table_fails_reporter SampleWorld.no_floats
                   (mkworld None (Some Sample2.no_booking_seat) "2026-01-15" [])
                   Sample2.no_booking_seat 7 eq_refl _ eq_refl eq_refl)).
  unfold expected. simpl.
  intros item [<-|[<-|[<-|[<-|[<-|[]]]]]]; eexists; reflexivity.
Defined.

Lemma test_flag_exit_status_witness :
  fst (main SampleWorld.no_script SampleWorld.no_floats Sample2.only_test
            (mkworld None (Some Sample2.full) "2026-01-15" []))
  = Exited 0.
Proof.
  apply test_flag_exit_status.
  eexists. eexists. split; vm_compute; reflexivity.
Defined.
